(** * EnergyAI: a shallow embedding of the ledger node

    The development follows the layout of the repository:

    - [Effects]        : a state-and-exception monad for the JavaScript
                         methods that mutate [this] and may [throw];
    - [Budget]         : [src/config/budgetMonitor.js];
    - [Secrets]        : [src/config/secrets.js];
    - [Core]           : the ledger core ([core/Transaction.js],
                         [core/Block.js], [core/Blockchain.js]);
    - [Node]           : the Express application of [src/node.js].

    JavaScript objects are records, methods are computations in the monad
    over the record they mutate, and [try { .. } catch] is [try_catch]. *)

From Stdlib Require Import ZArith QArith Qround Lqa Ascii String List Sorted Lia.
From stdpp Require Import base option list gmap strings pretty.

Local Open Scope string_scope.
Local Open Scope Z_scope.

(* ===================================================================== *)
(** ** Effects: mutable state and exceptions *)
(* ===================================================================== *)

Module Effects.

(** The error classes that cross the boundary of the core, and the plain
    [Error] / [TypeError] of the host language. *)
Inductive ErrorKind :=
| ValidationError
| InvalidTransactionError
| SigningError
| MiningError
| TypeError
| PlainError.

Record Error := mkError { errKind : ErrorKind; errMessage : string }.

(** What a call does: it returns, it throws, it is still running when
    the step budget of a loop is used up ([Spin], for the proof-of-work
    loop, which has no bound in the program), or it ends the process
    ([Exit], for [process.exit(code)]). *)
Inductive outcome (A : Type) :=
| Ret (a : A)
| Throw (e : Error)
| Spin
| Exit (code : nat).
Arguments Ret {A} a.
Arguments Throw {A} e.
Arguments Spin {A}.
Arguments Exit {A} code.

(** A method of an object of type [S].  The state that comes back with a
    [Throw] is the state at the point of the throw: mutations made before
    an exception are not rolled back, as in JavaScript. *)
Definition M (S A : Type) : Type := S -> outcome A * S.

Definition ret {S A} (a : A) : M S A := fun s => (Ret a, s).
Definition throw {S A} (e : Error) : M S A := fun s => (Throw e, s).
Definition spin {S A} : M S A := fun s => (Spin, s).
Definition bind {S A B} (m : M S A) (k : A -> M S B) : M S B :=
  fun s => match m s with
           | (Ret a, s') => k a s'
           | (Throw e, s') => (Throw e, s')
           | (Spin, s') => (Spin, s')
           | (Exit n, s') => (Exit n, s')
           end.
Definition exit {S A} (code : nat) : M S A := fun s => (Exit code, s).
Definition get {S} : M S S := fun s => (Ret s, s).
Definition put {S} (s : S) : M S unit := fun _ => (Ret tt, s).
Definition modify {S} (f : S -> S) : M S unit := fun s => (Ret tt, f s).

(** [try { body } catch (error) { handler error }] *)
Definition try_catch {S A} (body : M S A) (handler : Error -> M S A) : M S A :=
  fun s => match body s with
           | (Throw e, s') => handler e s'
           | r => r
           end.

(** Run a method of a field of the state on that field. *)
Definition zoom {S T A} (proj : S -> T) (upd : T -> S -> S) (m : M T A) : M S A :=
  fun s => let '(r, t') := m (proj s) in (r, upd t' s).

Definition when {S} (b : bool) (m : M S unit) : M S unit :=
  if b then m else ret tt.

End Effects.
Import Effects.

Declare Scope js_scope.
Delimit Scope js_scope with js.
Notation "x <- c1 ;; c2" := (bind c1 (fun x => c2))
  (at level 100, c1 at next level, right associativity) : js_scope.
Notation "c1 ;; c2" := (bind c1 (fun _ => c2))
  (at level 100, right associativity) : js_scope.
Local Open Scope js_scope.

(* ===================================================================== *)
(** ** Budget monitor ([src/config/budgetMonitor.js]) *)
(* ===================================================================== *)

(** The monitor computes with JavaScript numbers.  Its control flow only
    uses them through [+], [/], [*], [>=], truthiness and the printing of
    [Math.floor]; the development is parametric in these, so that every
    statement holds for IEEE doubles as well as for the exact rationals of
    the instance [QNumber] used to run the model. *)
Class JsNumber := {
  num : Type;
  lit : Q -> num;                  (* a decimal literal of the program *)
  nadd : num -> num -> num;
  nmul : num -> num -> num;
  ndiv : num -> num -> num;
  nge : num -> num -> bool;        (* [a >= b] *)
  truthy : num -> bool;            (* [false] for [0] and [NaN] *)
  floorString : num -> string;     (* [`${Math.floor(a)}`] *)
}.

Module Budget.
Section WithNumbers.
Context {JN : JsNumber}.

(** [Date]: the two components the monitor reads. *)
Record Date := mkDate { getDate : nat; getMonth : nat }.

Inductive Event :=
| AlertEvent (period : string) (percentage current limit : num)
| ShutdownEvent (period : string) (current limit : num)
| ResetEvent.

(** The listeners that [src/node.js] registers with [on]: one that only
    logs, and one that calls [process.exit(code)]. *)
Inductive Listener :=
| LogListener
| ExitListener (code : nat).

Definition eventName (e : Event) : string :=
  match e with
  | AlertEvent _ _ _ _ => "alert"
  | ShutdownEvent _ _ _ => "shutdown"
  | ResetEvent => "reset"
  end.

Record BudgetMonitor := mkMonitor {
  maxDailySpend : num;
  maxMonthlySpend : num;
  alertThreshold : num;
  dailySpend : num;
  monthlySpend : num;
  lastResetDate : Date;
  lastMonthResetDate : Date;
  isShutdown : bool;
  alerts : list string;
  listeners : list (string * Listener);   (* the registry of [EventEmitter] *)
  emitted : list Event     (* what was handed to [this.emit], oldest first *)
}.

Record Config := mkConfig {
  cfgMaxDailySpend : option num;
  cfgMaxMonthlySpend : option num;
  cfgAlertThreshold : option num
}.

(** [config.x || d] for a possibly absent numeric field. *)
Definition orDefault (x : option num) (d : num) : num :=
  match x with
  | Some v => if truthy v then v else d
  | None => d
  end.

(** [constructor(config = {})]; [now] is the value of [new Date()]. *)
Definition new_BudgetMonitor (config : Config) (now : Date) : BudgetMonitor :=
  {| maxDailySpend := orDefault (cfgMaxDailySpend config) (lit 10);
     maxMonthlySpend := orDefault (cfgMaxMonthlySpend config) (lit 100);
     alertThreshold := orDefault (cfgAlertThreshold config) (lit 80);
     dailySpend := lit 0;
     monthlySpend := lit 0;
     lastResetDate := now;
     lastMonthResetDate := now;
     isShutdown := false;
     alerts := [];
     listeners := [];
     emitted := [] |}.

Definition set_spend (d mo : num) (m : BudgetMonitor) : BudgetMonitor :=
  {| maxDailySpend := maxDailySpend m; maxMonthlySpend := maxMonthlySpend m;
     alertThreshold := alertThreshold m;
     dailySpend := d; monthlySpend := mo;
     lastResetDate := lastResetDate m; lastMonthResetDate := lastMonthResetDate m;
     isShutdown := isShutdown m; alerts := alerts m;
     listeners := listeners m; emitted := emitted m |}.

Definition set_isShutdown (b : bool) (m : BudgetMonitor) : BudgetMonitor :=
  {| maxDailySpend := maxDailySpend m; maxMonthlySpend := maxMonthlySpend m;
     alertThreshold := alertThreshold m;
     dailySpend := dailySpend m; monthlySpend := monthlySpend m;
     lastResetDate := lastResetDate m; lastMonthResetDate := lastMonthResetDate m;
     isShutdown := b; alerts := alerts m;
     listeners := listeners m; emitted := emitted m |}.

Definition set_alerts (a : list string) (m : BudgetMonitor) : BudgetMonitor :=
  {| maxDailySpend := maxDailySpend m; maxMonthlySpend := maxMonthlySpend m;
     alertThreshold := alertThreshold m;
     dailySpend := dailySpend m; monthlySpend := monthlySpend m;
     lastResetDate := lastResetDate m; lastMonthResetDate := lastMonthResetDate m;
     isShutdown := isShutdown m; alerts := a;
     listeners := listeners m; emitted := emitted m |}.

Definition set_resetDates (d dm : Date) (m : BudgetMonitor) : BudgetMonitor :=
  {| maxDailySpend := maxDailySpend m; maxMonthlySpend := maxMonthlySpend m;
     alertThreshold := alertThreshold m;
     dailySpend := dailySpend m; monthlySpend := monthlySpend m;
     lastResetDate := d; lastMonthResetDate := dm;
     isShutdown := isShutdown m; alerts := alerts m;
     listeners := listeners m; emitted := emitted m |}.

Definition set_listeners (l : list (string * Listener)) (m : BudgetMonitor)
  : BudgetMonitor :=
  {| maxDailySpend := maxDailySpend m; maxMonthlySpend := maxMonthlySpend m;
     alertThreshold := alertThreshold m;
     dailySpend := dailySpend m; monthlySpend := monthlySpend m;
     lastResetDate := lastResetDate m; lastMonthResetDate := lastMonthResetDate m;
     isShutdown := isShutdown m; alerts := alerts m;
     listeners := l; emitted := emitted m |}.

Definition set_emitted (l : list Event) (m : BudgetMonitor) : BudgetMonitor :=
  {| maxDailySpend := maxDailySpend m; maxMonthlySpend := maxMonthlySpend m;
     alertThreshold := alertThreshold m;
     dailySpend := dailySpend m; monthlySpend := monthlySpend m;
     lastResetDate := lastResetDate m; lastMonthResetDate := lastMonthResetDate m;
     isShutdown := isShutdown m; alerts := alerts m;
     listeners := listeners m; emitted := l |}.

(** [this.on(name, listener)] *)
Definition on (name : string) (l : Listener) : M BudgetMonitor unit :=
  modify (fun m => set_listeners (listeners m ++ [(name, l)]) m).

(** The listeners of an event are called one after the other, in the
    order of their registration. *)
Fixpoint runListeners (name : string) (ls : list (string * Listener))
  : M BudgetMonitor unit :=
  match ls with
  | [] => ret tt
  | (n, l) :: rest =>
      if String.eqb n name then
        match l with
        | LogListener => runListeners name rest
        | ExitListener code => exit code
        end
      else runListeners name rest
  end.

(** [this.emit(name, payload)] *)
Definition emit (e : Event) : M BudgetMonitor unit :=
  modify (fun m => set_emitted (emitted m ++ [e]) m) ;;
  m <- get ;;
  runListeners (eventName e) (listeners m).

Definition includes (l : list string) (k : string) : bool :=
  existsb (String.eqb k) l.

(** [sendAlert(period, percentage, current, limit)] *)
Definition sendAlert (period : string) (percentage current limit : num)
  : M BudgetMonitor unit :=
  let alertKey := period ++ "-" ++ floorString percentage in
  m <- get ;;
  if includes (alerts m) alertKey then ret tt
  else
    modify (set_alerts (alerts m ++ [alertKey])) ;;
    emit (AlertEvent period percentage current limit).

(** [triggerShutdown(period, current, limit)] *)
Definition triggerShutdown (period : string) (current limit : num)
  : M BudgetMonitor unit :=
  m <- get ;;
  if isShutdown m then ret tt
  else
    modify (set_isShutdown true) ;;
    emit (ShutdownEvent period current limit).

Definition dailyPercentage (m : BudgetMonitor) : num :=
  nmul (ndiv (dailySpend m) (maxDailySpend m)) (lit 100).
Definition monthlyPercentage (m : BudgetMonitor) : num :=
  nmul (ndiv (monthlySpend m) (maxMonthlySpend m)) (lit 100).

(** [checkBudgets()] *)
Definition checkBudgets : M BudgetMonitor unit :=
  m <- get ;;
  let dailyPct := dailyPercentage m in
  let monthlyPct := monthlyPercentage m in
  (if nge dailyPct (lit 100) then
     triggerShutdown "daily" (dailySpend m) (maxDailySpend m)
   else if nge dailyPct (alertThreshold m) then
     sendAlert "daily" dailyPct (dailySpend m) (maxDailySpend m)
   else ret tt) ;;
  (if nge monthlyPct (lit 100) then
     triggerShutdown "monthly" (monthlySpend m) (maxMonthlySpend m)
   else if nge monthlyPct (alertThreshold m) then
     sendAlert "monthly" monthlyPct (monthlySpend m) (maxMonthlySpend m)
   else ret tt).

Definition shutdownMessage : string := "Service shutdown: Budget limit exceeded".

(** [recordCost(amount, service = 'unknown')] *)
Definition recordCost (amount : num) (service : string) : M BudgetMonitor unit :=
  m <- get ;;
  if isShutdown m then throw (mkError PlainError shutdownMessage)
  else
    modify (fun m => set_spend (nadd (dailySpend m) amount)
                               (nadd (monthlySpend m) amount) m) ;;
    checkBudgets.

(** [resetIfNeeded()]; [now] is the value of [new Date()]. *)
Definition resetIfNeeded (now : Date) : M BudgetMonitor unit :=
  m <- get ;;
  when (negb (Nat.eqb (getDate now) (getDate (lastResetDate m))))
    (modify (fun m =>
       set_alerts (List.filter (fun a => negb (String.prefix "daily-" a)) (alerts m))
         (set_resetDates now (lastMonthResetDate m)
            (set_spend (lit 0) (monthlySpend m) m)))) ;;
  m <- get ;;
  when (negb (Nat.eqb (getMonth now) (getMonth (lastMonthResetDate m))))
    (modify (fun m =>
       set_alerts (List.filter (fun a => negb (String.prefix "monthly-" a)) (alerts m))
         (set_resetDates (lastResetDate m) now
            (set_spend (dailySpend m) (lit 0) m)))).

(** The callback of [setInterval] in [startMonitoring()]. *)
Definition monitoringTick (now : Date) : M BudgetMonitor unit :=
  checkBudgets ;; resetIfNeeded now.

(** [resetShutdown(adminKey)] *)
Definition resetShutdown (adminKey : string) : M BudgetMonitor unit :=
  modify (set_isShutdown false) ;; emit ResetEvent.

(** [estimateCost(operation, params = {})] *)
Definition costTable (operation : string) : option num :=
  if String.eqb operation "api_call" then Some (lit 0.0001)
  else if String.eqb operation "compute_hour" then Some (lit 0.10)
  else if String.eqb operation "storage_gb_month" then Some (lit 0.02)
  else if String.eqb operation "network_gb" then Some (lit 0.01)
  else if String.eqb operation "transaction" then Some (lit 0.00001)
  else if String.eqb operation "mining" then Some (lit 0.05)
  else None.

Definition estimateCost (operation : string) (multiplier : option num) : num :=
  let baseCost := orDefault (costTable operation) (lit 0) in
  let multiplier := orDefault multiplier (lit 1) in
  nmul baseCost multiplier.

End WithNumbers.
End Budget.

(* ===================================================================== *)
(** ** Secret manager ([src/config/secrets.js]) *)
(* ===================================================================== *)

Module Secrets.

(** The values a secret lookup can produce. *)
Inductive jsval :=
| JUndefined
| JNull
| JString (s : string).

Definition js_truthy (v : jsval) : bool :=
  match v with
  | JString s => negb (String.eqb s EmptyString)
  | _ => false
  end.

(** [a || b] *)
Definition js_or (a b : jsval) : jsval := if js_truthy a then a else b.

(** What a call to a cloud client resolves to. *)
Inductive reply (A : Type) :=
| Resolves (a : A)
| Rejects (e : Error).
Arguments Resolves {A} a.
Arguments Rejects {A} e.

Definition await {S A} (r : reply A) : M S A :=
  match r with
  | Resolves a => ret a
  | Rejects e => throw e
  end.

(** The surroundings of the process at the time of a call: [process.env]
    and the three cloud services, each as the answer it gives for a
    request. *)
Record World := mkWorld {
  processEnv : gmap string string;
  accessSecretVersion : string -> reply string;   (* payload, as utf8 *)
  ssmSend : string -> reply jsval;                (* [response.Parameter.Value] *)
  keyVaultGetSecret : string -> reply jsval       (* [secret.value] *)
}.

(** [process.env[name]] *)
Definition env_get (w : World) (name : string) : jsval :=
  match processEnv w !! name with
  | Some s => JString s
  | None => JUndefined
  end.

Record CacheEntry := mkEntry { value : jsval; timestamp : Z }.

Record SecretManager := mkSecretManager {
  provider : string;
  cache : gmap string CacheEntry;
  gcpClient : bool;      (* the client objects: present or [undefined] *)
  awsClient : bool;
  azureClient : bool
}.

Definition cacheTimeout : Z := 5 * 60 * 1000.

Definition set_cache (c : gmap string CacheEntry) (sm : SecretManager) : SecretManager :=
  {| provider := provider sm; cache := c; gcpClient := gcpClient sm;
     awsClient := awsClient sm; azureClient := azureClient sm |}.

Definition undefinedClient : Error :=
  mkError TypeError "Cannot read properties of undefined".

(** [getGCPSecret(secretName)] *)
Definition getGCPSecret (w : World) (secretName : string) : M SecretManager jsval :=
  let projectId := env_get w "GOOGLE_CLOUD_PROJECT_ID" in
  match projectId with
  | JString p =>
      if String.eqb p EmptyString
      then throw (mkError PlainError "GOOGLE_CLOUD_PROJECT_ID not set")
      else
        let name := "projects/" ++ p ++ "/secrets/" ++ secretName ++ "/versions/latest" in
        sm <- get ;;
        if gcpClient sm
        then (data <- await (accessSecretVersion w name) ;; ret (JString data))
        else throw undefinedClient
  | _ => throw (mkError PlainError "GOOGLE_CLOUD_PROJECT_ID not set")
  end.

(** [getAWSSecret(secretName)] *)
Definition getAWSSecret (w : World) (secretName : string) : M SecretManager jsval :=
  sm <- get ;;
  if awsClient sm then await (ssmSend w secretName) else throw undefinedClient.

(** [getAzureSecret(secretName)] *)
Definition getAzureSecret (w : World) (secretName : string) : M SecretManager jsval :=
  sm <- get ;;
  if azureClient sm then await (keyVaultGetSecret w secretName) else throw undefinedClient.

(** The [switch (this.provider)] of [getSecret]. *)
Definition providerLookup (w : World) (secretName : string) (defaultValue : jsval)
  : M SecretManager jsval :=
  sm <- get ;;
  if String.eqb (provider sm) "gcp" then getGCPSecret w secretName
  else if String.eqb (provider sm) "aws" then getAWSSecret w secretName
  else if String.eqb (provider sm) "azure" then getAzureSecret w secretName
  else ret (js_or (env_get w secretName) defaultValue).

(** [getSecret(secretName, defaultValue = null)].  [now] is the value of
    [Date.now()] at the cache check and [fetched] its value when the
    entry is stored, after the provider has answered. *)
Definition getSecret (w : World) (now fetched : Z)
    (secretName : string) (defaultValue : jsval) : M SecretManager jsval :=
  let defaultValue := match defaultValue with JUndefined => JNull | v => v end in
  sm <- get ;;
  let fresh :=
    match cache sm !! secretName with
    | Some cached =>
        if Z.ltb (now - timestamp cached) cacheTimeout then Some (value cached) else None
    | None => None
    end in
  match fresh with
  | Some v => ret v
  | None =>
      try_catch
        (secretValue <- providerLookup w secretName defaultValue ;;
         when (js_truthy secretValue)
           (modify (fun sm =>
              set_cache (<[secretName := mkEntry secretValue fetched]> (cache sm)) sm)) ;;
         ret secretValue)
        (fun error => ret defaultValue)
  end.

(** [clearCache()] *)
Definition clearCache : M SecretManager unit := modify (set_cache ∅).

(** [constructor()] with [initializeClients()].  [clientFails] says that
    building the client of the selected provider throws. *)
Definition new_SecretManager (w : World) (clientFails : bool) : SecretManager :=
  let p := match js_or (env_get w "SECRET_PROVIDER") (JString "env") with
           | JString p => p
           | _ => "env"
           end in
  if String.eqb p "gcp" then
    if clientFails then mkSecretManager "env" ∅ false false false
    else mkSecretManager "gcp" ∅ true false false
  else if String.eqb p "aws" then
    if clientFails then mkSecretManager "env" ∅ false false false
    else mkSecretManager "aws" ∅ false true false
  else if String.eqb p "azure" then
    if js_truthy (env_get w "AZURE_KEY_VAULT_NAME") then
      if clientFails then mkSecretManager "env" ∅ false false false
      else mkSecretManager "azure" ∅ false false true
    else mkSecretManager "azure" ∅ false false false
  else mkSecretManager "env" ∅ false false false.

(** [parseInt(v)]; [None] is [NaN]. *)
Definition isSpace (c : ascii) : bool :=
  let n := nat_of_ascii c in
  Nat.eqb n 32 || (Nat.leb 9 n && Nat.leb n 13).

Fixpoint skipSpaces (s : string) : string :=
  match s with
  | String c rest => if isSpace c then skipSpaces rest else s
  | EmptyString => s
  end.

Definition digitValue (c : ascii) : option Z :=
  let n := nat_of_ascii c in
  if Nat.leb 48 n && Nat.leb n 57 then Some (Z.of_nat n - 48)
  else if Nat.leb 97 n && Nat.leb n 122 then Some (Z.of_nat n - 87)
  else if Nat.leb 65 n && Nat.leb n 90 then Some (Z.of_nat n - 55)
  else None.

Fixpoint parseDigits (radix : Z) (s : string) (acc : option Z) : option Z :=
  match s with
  | EmptyString => acc
  | String c rest =>
      match digitValue c with
      | Some d =>
          if Z.ltb d radix then parseDigits radix rest (Some (default 0 acc * radix + d))
          else acc
      | None => acc
      end
  end.

Definition parseInt (v : jsval) : option Z :=
  match v with
  | JString s =>
      let s := skipSpaces s in
      let '(negative, s) :=
        match s with
        | String "-" rest => (true, rest)
        | String "+" rest => (false, rest)
        | _ => (false, s)
        end in
      let '(radix, s) :=
        match s with
        | String "0" (String "x" rest) => (16, rest)
        | String "0" (String "X" rest) => (16, rest)
        | _ => (10, s)
        end in
      (fun n => if negative : bool then - n else n) <$> parseDigits radix s None
  | _ => None
  end.

(** The part of [getConfig()] that configures the ledger. *)
Record LedgerConfig := mkLedgerConfig {
  miningDifficulty : option Z;
  miningReward : option Z;
  energyToTokenRate : option Z
}.

Definition getConfig (w : World) (now : Z) : M SecretManager LedgerConfig :=
  difficulty <- getSecret w now now "MINING_DIFFICULTY" (JString "2") ;;
  reward <- getSecret w now now "MINING_REWARD" (JString "100") ;;
  rate <- getSecret w now now "ENERGY_TO_TOKEN_RATE" (JString "10") ;;
  ret (mkLedgerConfig (parseInt difficulty) (parseInt reward) (parseInt rate)).

End Secrets.

(* ===================================================================== *)
(** ** The ledger core *)
(* ===================================================================== *)

(** [src/node.js] imports the core from [./core/Transaction.js],
    [./core/Blockchain.js] and [./wallet/Wallet.js]; these files are not
    part of the sources at hand, and the definitions of this module are
    written from the specification of the repository, section by section.
    Amounts are integers of the ledger's native unit. *)

(** Modelled from the spec: the kinds of transaction that
    [core/Transaction.js] recognizes (section 3, [transactionType]). *)
Inductive TransactionType :=
| transfer
| mining_reward
| energy_tokenize
| compute_allocate
| carbon_purchase.

(** Modelled from the spec: the fields of a [Transaction] over which it is
    signed, in a fixed order and without the signature (the canonical
    payload of [core/Transaction.js]). *)
Record Payload := mkPayload {
  p_fromAddress : string;
  p_toAddress : string;
  p_amount : Z;
  p_transactionType : TransactionType;
  p_metadata : gmap string string;
  p_timestamp : Z
}.

(** Modelled from the spec: the signature primitive behind [Wallet] and
    [Transaction.sign] / [Transaction.verifySignature]: key pairs, the
    address derived from a public key, and the public key associated with
    an address. *)
Class SignatureScheme := {
  publicKeyOf : string -> string;            (* private key |-> public key *)
  addressOf : string -> string;              (* public key |-> address *)
  publicKeyFor : string -> option string;    (* address |-> public key *)
  signPayload : string -> Payload -> string;
  verifyPayload : string -> Payload -> string -> bool
}.


Module Tx.

(** Modelled from the spec: the [Transaction] record of
    [core/Transaction.js] (section 3, Transaction). *)
Record Transaction := mkTransaction {
  fromAddress : string;
  toAddress : string;
  amount : Z;
  transactionType : TransactionType;
  metadata : gmap string string;
  timestamp : Z;
  signature : option string
}.

(** Modelled from the spec: the sentinel that stands in [fromAddress] of
    a system-issued transaction. *)
Definition SYSTEM_ADDRESS : string := "SYSTEM".

(** Modelled from the spec: a system-issued transaction is one whose
    [fromAddress] is the sentinel. *)
Definition isSystem (tx : Transaction) : bool :=
  String.eqb (fromAddress tx) SYSTEM_ADDRESS.

(** Modelled from the spec: the names of the kinds, as the requests of
    [src/node.js] spell them. *)
Definition typeName (t : TransactionType) : string :=
  match t with
  | transfer => "transfer"
  | mining_reward => "mining_reward"
  | energy_tokenize => "energy_tokenize"
  | compute_allocate => "compute_allocate"
  | carbon_purchase => "carbon_purchase"
  end.

(** Modelled from the spec: the check of [construct] that the kind is a
    recognized one. *)
Definition parseType (s : string) : option TransactionType :=
  if String.eqb s "transfer" then Some transfer
  else if String.eqb s "mining_reward" then Some mining_reward
  else if String.eqb s "energy_tokenize" then Some energy_tokenize
  else if String.eqb s "compute_allocate" then Some compute_allocate
  else if String.eqb s "carbon_purchase" then Some carbon_purchase
  else None.

(** Modelled from the spec: [construct(fromAddress, toAddress, amount,
    transactionType, metadata)] of [core/Transaction.js] (section 4.1);
    [now] is the creation time. *)
Definition construct {S} (from to : string) (amt : Z) (type : string)
    (meta : gmap string string) (now : Z) : M S Transaction :=
  if Z.ltb amt 0 then throw (mkError ValidationError "Amount must not be negative")
  else if String.eqb to EmptyString
  then throw (mkError ValidationError "Recipient address is required")
  else match parseType type with
       | None => throw (mkError ValidationError "Unknown transaction type")
       | Some t => ret (mkTransaction from to amt t meta now None)
       end.

(** Modelled from the spec: the canonical payload of a transaction, all
    its fields but the signature. *)
Definition canonicalPayload (tx : Transaction) : Payload :=
  mkPayload (fromAddress tx) (toAddress tx) (amount tx) (transactionType tx)
            (metadata tx) (timestamp tx).

(** [tx.signature = s] *)
Definition set_signature (s : option string) (tx : Transaction) : Transaction :=
  mkTransaction (fromAddress tx) (toAddress tx) (amount tx) (transactionType tx)
                (metadata tx) (timestamp tx) s.

(** Modelled from the spec: [sign(privateKey)] of [core/Transaction.js]
    (section 4.1). *)
Definition sign `{SignatureScheme} (privateKey : string) : M Transaction unit :=
  tx <- get ;;
  if String.eqb (addressOf (publicKeyOf privateKey)) (fromAddress tx)
  then modify (set_signature (Some (signPayload privateKey (canonicalPayload tx))))
  else throw (mkError SigningError "You cannot sign transactions for other wallets").

(** Modelled from the spec: [verifySignature()] of [core/Transaction.js]
    (section 4.1): the payload is recomputed and the signature checked
    against the public key associated with [fromAddress]; a missing
    signature, or an address with no key, gives [false]. *)
Definition verifySignature `{SignatureScheme} (tx : Transaction) : bool :=
  match signature tx with
  | None => false
  | Some sig =>
      match publicKeyFor (fromAddress tx) with
      | None => false
      | Some pk => verifyPayload pk (canonicalPayload tx) sig
      end
  end.

End Tx.

(** Modelled from the spec: the digest of [Block.computeHash()] as a
    function of the fields it covers: index, timestamp, transactions,
    previous hash and nonce (section 3, Block). *)
Class HashFunction := {
  blockDigest : nat -> Z -> list Tx.Transaction -> string -> nat -> string
}.

Module Blk.

(** Modelled from the spec: the [Block] record of [core/Block.js]
    (section 3, Block). *)
Record Block := mkBlock {
  index : nat;
  timestamp : Z;
  transactions : list Tx.Transaction;
  previousHash : string;
  nonce : nat;
  difficulty : nat;
  hash : string
}.

(** Modelled from the spec: [construct(index, timestamp, transactions,
    previousHash, difficulty)]; the nonce starts at 0 and the hash is
    left to the sealing. *)
Definition construct (index : nat) (timestamp : Z) (transactions : list Tx.Transaction)
    (previousHash : string) (difficulty : nat) : Block :=
  mkBlock index timestamp transactions previousHash 0 difficulty EmptyString.

(** Modelled from the spec: [computeHash()] of [core/Block.js]. *)
Definition computeHash `{HashFunction} (b : Block) : string :=
  blockDigest (index b) (timestamp b) (transactions b) (previousHash b) (nonce b).

(** [Array(n + 1).join('0')] *)
Fixpoint zeros (n : nat) : string :=
  match n with
  | O => EmptyString
  | S n' => String "0"%char (zeros n')
  end.

(** Modelled from the spec: the proof-of-work condition of [core/Block.js]:
    the hash starts with [difficulty] characters ['0']. *)
Definition meetsDifficulty (h : string) (difficulty : nat) : bool :=
  String.prefix (zeros difficulty) h.

Definition set_nonce_hash (n : nat) (h : string) (b : Block) : Block :=
  mkBlock (index b) (timestamp b) (transactions b) (previousHash b) n (difficulty b) h.

(** [this.hash = this.computeHash()] *)
Definition rehash `{HashFunction} (b : Block) : Block :=
  set_nonce_hash (nonce b) (computeHash b) b.

(** Modelled from the spec: the loop of [mine] in [core/Block.js]: while
    the hash misses the target, increment the nonce and recompute the
    hash.  [fuel] bounds the iterations. *)
Fixpoint mineLoop `{HashFunction} (fuel : nat) (difficulty : nat) : M Block unit :=
  b <- get ;;
  if meetsDifficulty (hash b) difficulty then ret tt
  else match fuel with
       | O => spin
       | S fuel' =>
           modify (fun b => rehash (set_nonce_hash (S (nonce b)) (hash b) b)) ;;
           mineLoop fuel' difficulty
       end.

(** Modelled from the spec: [mine(difficulty)] of [core/Block.js]
    (section 4.3): the hash is computed for the nonce 0, then the loop
    runs. *)
Definition mine `{HashFunction} (fuel : nat) (difficulty : nat) : M Block unit :=
  modify rehash ;; mineLoop fuel difficulty.

End Blk.

Module Chain.
Import Tx Blk.

(** Modelled from the spec: the state of the [Blockchain] object of
    [core/Blockchain.js] (section 3, Chain), with the rate of
    [tokenizeEnergy]. *)
Record Blockchain := mkBlockchain {
  chain : list Block;
  pendingTransactions : list Transaction;
  difficulty : nat;
  miningReward : Z;
  energyToTokenRate : Z
}.

(** Modelled from the spec: the genesis block: index 0, no transactions,
    a fixed previous hash, and the hash of these fields. *)
Definition genesisBlock `{HashFunction} : Block :=
  rehash (Blk.construct 0 0 [] "0" 0).

(** Modelled from the spec: the constructor of [Blockchain]. *)
Definition new_Blockchain `{HashFunction} (difficulty : nat) (miningReward rate : Z)
  : Blockchain :=
  mkBlockchain [genesisBlock] [] difficulty miningReward rate.

Definition set_pending (p : list Transaction) (c : Blockchain) : Blockchain :=
  mkBlockchain (chain c) p (difficulty c) (miningReward c) (energyToTokenRate c).

Definition set_chain (bs : list Block) (c : Blockchain) : Blockchain :=
  mkBlockchain bs (pendingTransactions c) (difficulty c) (miningReward c)
               (energyToTokenRate c).

(** Modelled from the spec: the body of the loop of [getBalanceOfAddress]
    in [core/Blockchain.js]: the effect of one transaction on the running
    balance of [address]. *)
Definition applyTransaction (address : string) (balance : Z) (tx : Transaction) : Z :=
  let balance :=
    if String.eqb (fromAddress tx) address then balance - amount tx else balance in
  if String.eqb (toAddress tx) address then balance + amount tx else balance.

(** Modelled from the spec: [getBalanceOfAddress(address)] of
    [core/Blockchain.js] (section 4.4): a loop over the blocks of the
    chain and, within, over the transactions of the block. *)
Definition getBalanceOfAddress (c : Blockchain) (address : string) : Z :=
  fold_left
    (fun balance block => fold_left (applyTransaction address) (transactions block) balance)
    (chain c) 0.

(** Modelled from the spec: the address is the sender or the recipient. *)
Definition involves (address : string) (tx : Transaction) : bool :=
  String.eqb (fromAddress tx) address || String.eqb (toAddress tx) address.

(** Modelled from the spec: [getAllTransactionsForAddress(address)]. *)
Definition getAllTransactionsForAddress (c : Blockchain) (address : string)
  : list Transaction :=
  flat_map (fun block => List.filter (involves address) (transactions block)) (chain c).

(** Modelled from the spec: the types whose amount is spent from the
    balance of the sender. *)
Definition transferLike (t : TransactionType) : bool :=
  match t with
  | transfer | compute_allocate | carbon_purchase => true
  | mining_reward | energy_tokenize => false
  end.

(** Modelled from the spec: [addTransaction(transaction)] of
    [core/Blockchain.js] (section 4.4). *)
Definition addTransaction `{SignatureScheme} (tx : Transaction) : M Blockchain unit :=
  c <- get ;;
  if String.eqb (fromAddress tx) EmptyString || String.eqb (toAddress tx) EmptyString
  then throw (mkError InvalidTransactionError "Transaction must include from and to address")
  else if negb (isSystem tx) && negb (verifySignature tx)
  then throw (mkError InvalidTransactionError "Cannot add invalid transaction to chain")
  else if transferLike (transactionType tx)
          && Z.ltb (getBalanceOfAddress c (fromAddress tx)) (amount tx)
  then throw (mkError InvalidTransactionError "Insufficient balance")
  else modify (fun c => set_pending (pendingTransactions c ++ [tx]) c).

(** Run a method of a local object [t]; the object after the call is
    returned with the result. *)
Definition runOn {S T A} (m : M T A) (t : T) : M S (A * T) :=
  fun s => match m t with
           | (Ret a, t') => (Ret (a, t'), s)
           | (Throw e, _) => (Throw e, s)
           | (Spin, _) => (Spin, s)
           | (Exit n, _) => (Exit n, s)
           end.

(** Modelled from the spec: the reward transaction that
    [minePendingTransactions] appends. *)
Definition rewardTransaction (c : Blockchain) (minerAddress : string)
    (energyData : gmap string string) (now : Z) : Transaction :=
  mkTransaction SYSTEM_ADDRESS minerAddress (miningReward c) mining_reward
                energyData now None.

(** Modelled from the spec: [minePendingTransactions(minerAddress,
    energyData)] of [core/Blockchain.js] (section 4.4); [now] is the
    time of the call and [fuel] bounds the proof-of-work loop. *)
Definition minePendingTransactions `{HashFunction} (fuel : nat) (now : Z)
    (minerAddress : string) (energyData : gmap string string) : M Blockchain unit :=
  c <- get ;;
  match last (chain c) with
  | None => throw (mkError MiningError "Chain is not initialized")
  | Some latest =>
      let rewardTx := rewardTransaction c minerAddress energyData now in
      let block := Blk.construct (length (chain c)) now
                     (pendingTransactions c ++ [rewardTx]) (hash latest) (difficulty c) in
      r <- runOn (mine fuel (difficulty c)) block ;;
      let sealed := snd r in
      modify (fun c => set_pending [] (set_chain (chain c ++ [sealed]) c))
  end.

(** Modelled from the spec: the three checks of [isChainValid] in
    [core/Blockchain.js] on a block and its predecessor. *)
Definition blockChecks `{HashFunction} (previous current : Block) : bool :=
  if negb (String.eqb (hash current) (computeHash current)) then false
  else if negb (String.eqb (previousHash current) (hash previous)) then false
  else if negb (meetsDifficulty (hash current) (Blk.difficulty current)) then false
  else true.

(** Modelled from the spec: the loop of [isChainValid] from a block on. *)
Fixpoint validFrom `{HashFunction} (previous : Block) (rest : list Block) : bool :=
  match rest with
  | [] => true
  | current :: rest' =>
      if blockChecks previous current then validFrom current rest' else false
  end.

(** Modelled from the spec: [isChainValid()] of [core/Blockchain.js]
    (section 4.4): the blocks from index 1 on, each against the one
    before it; the first failed check ends the loop with [false]. *)
Definition isChainValid `{HashFunction} (c : Blockchain) : bool :=
  match chain c with
  | [] => true
  | first :: rest => validFrom first rest
  end.

(** Modelled from the spec: the transaction that [tokenizeEnergy] admits. *)
Definition tokenizeTransaction (providerAddress : string) (tokens : Z)
    (energySource : string) (now : Z) : Transaction :=
  mkTransaction SYSTEM_ADDRESS providerAddress tokens energy_tokenize
                {[ "energySource" := energySource ]} now None.

(** Modelled from the spec: [tokenizeEnergy(providerAddress, energyAmount,
    energySource)] of [core/Blockchain.js] (section 4.4); the tokens
    are returned, as [src/node.js] reads them from the call. *)
Definition tokenizeEnergy (now : Z) (providerAddress : string) (energyAmount : Z)
    (energySource : string) : M Blockchain Z :=
  if Z.leb energyAmount 0
  then throw (mkError ValidationError "Energy amount must be positive")
  else
    c <- get ;;
    let tokens := energyAmount * energyToTokenRate c in
    modify (fun c => set_pending
              (pendingTransactions c
                 ++ [tokenizeTransaction providerAddress tokens energySource now]) c) ;;
    ret tokens.

(** Modelled from the spec: the aggregation of [getEnergyLeaderboard] in
    [core/Blockchain.js], [totals[who] = (totals[who] || 0) + amt], on a
    table that keeps the order in which its keys were first written. *)
Fixpoint credit (who : string) (amt : Z) (totals : list (string * Z))
  : list (string * Z) :=
  match totals with
  | [] => [(who, amt)]
  | (k, v) :: rest =>
      if String.eqb k who then (k, v + amt) :: rest
      else (k, v) :: credit who amt rest
  end.

(** Modelled from the spec: only [energy_tokenize] transactions count, for
    the provider they credit. *)
Definition tally (totals : list (string * Z)) (tx : Transaction) : list (string * Z) :=
  match transactionType tx with
  | energy_tokenize => credit (toAddress tx) (amount tx) totals
  | _ => totals
  end.

(** Modelled from the spec: the totals over the sealed blocks. *)
Definition energyTotals (c : Blockchain) : list (string * Z) :=
  fold_left (fun totals block => fold_left tally (transactions block) totals)
            (chain c) [].

(** Modelled from the spec: the ranking of [getEnergyLeaderboard], a
    stable sort with the largest total first. *)
Fixpoint insertRanked (e : string * Z) (ranked : list (string * Z))
  : list (string * Z) :=
  match ranked with
  | [] => [e]
  | e' :: rest =>
      if Z.ltb (snd e') (snd e) then e :: e' :: rest
      else e' :: insertRanked e rest
  end.

(** Modelled from the spec: the sort of the table of totals. *)
Definition rank (totals : list (string * Z)) : list (string * Z) :=
  fold_left (fun ranked e => insertRanked e ranked) totals [].

(** Modelled from the spec: [getEnergyLeaderboard()] of
    [core/Blockchain.js] (section 4.4): the totals of the sealed
    [energy_tokenize] transactions per credited provider, ranked. *)
Definition getEnergyLeaderboard (c : Blockchain) : list (string * Z) :=
  rank (energyTotals c).

End Chain.

(* ===================================================================== *)
(** ** The HTTP node ([src/node.js]) *)
(* ===================================================================== *)

Module Node.
Import Budget Tx Blk Chain.

Section WithEnvironment.
Context {JN : JsNumber} {SS : SignatureScheme} {HF : HashFunction}.

(** Modelled from the spec: what [src/node.js] uses of a [Wallet] of
    [wallet/Wallet.js]. *)
Record Wallet := mkWallet {
  getAddress : string;
  getWalletId : string;
  walletType : string
}.

(** The module-level variables of [src/node.js]; [budgetMonitor] is
    [undefined] until [initializeServer] has run. *)
Record Server := mkServer {
  blockchain : Blockchain;
  budgetMonitor : option BudgetMonitor;
  nodeWallet : Wallet
}.

Definition set_blockchain (c : Blockchain) (s : Server) : Server :=
  mkServer c (budgetMonitor s) (nodeWallet s).
Definition set_budgetMonitor (m : option BudgetMonitor) (s : Server) : Server :=
  mkServer (blockchain s) m (nodeWallet s).

(** [initializeServer()]: [config] is the configuration read by
    [secretManager.getConfig()], or [None] when reading it failed. *)
Definition initializeServer (config : option Config) (now : Date) : M Server unit :=
  match config with
  | Some cfg =>
      let '(_, monitor) :=
        (on "alert" LogListener ;; on "shutdown" (ExitListener 1))
          (new_BudgetMonitor cfg now) in
      modify (set_budgetMonitor (Some monitor))
  | None =>
      modify (set_budgetMonitor
                (Some (new_BudgetMonitor (mkConfig (Some (lit 10)) (Some (lit 100)) None) now)))
  end.

(** The [transaction] object of the body of [POST /transaction/submit]. *)
Record TransactionJson := mkTransactionJson {
  j_fromAddress : string;
  j_toAddress : string;
  j_amount : Z;
  j_transactionType : string;
  j_metadata : gmap string string;
  j_signature : option string
}.

(** The requests of the routes modelled here, with the fields that the
    handlers read from [req.params] and [req.body].  An absent string
    field is the empty string, which [||] treats alike. *)
Inductive Request :=
| GET_blockchain
| GET_balance (address : string)
| GET_leaderboard
| GET_validate
| POST_transaction_submit (transaction : option TransactionJson)
| POST_mine (minerAddress : string) (energyData : option (gmap string string))
| POST_energy_tokenize (providerAddress : string) (energyAmount : Z)
                       (energySource : string).

Definition path (req : Request) : string :=
  match req with
  | GET_blockchain => "/blockchain"
  | GET_balance address => "/balance/" ++ address
  | GET_leaderboard => "/leaderboard"
  | GET_validate => "/validate"
  | POST_transaction_submit _ => "/transaction/submit"
  | POST_mine _ _ => "/mine"
  | POST_energy_tokenize _ _ _ => "/energy/tokenize"
  end.

Inductive Body :=
| NoBody
| ChainBody (blocks : list Block) (length : nat)
| BalanceBody (address : string) (balance : Z)
| LeaderboardBody (leaderboard : list (string * Z))
| ValidityBody (isValid : bool)
| PendingBody (pendingCount : nat)
| MinedBody (minerAddress : string) (newBalance : Z) (blockCount : nat)
| TokenizedBody (energyAmount tokensGenerated : Z) (energySource : string).

Record Response := mkResponse {
  status : nat;
  success : bool;
  error : option string;
  message : option string;
  body : Body
}.

Definition ok (message : option string) (body : Body) : Response :=
  mkResponse 200 true None message body.

(** [res.status(400).json({ success: false, error: error.message })] *)
Definition badRequest (e : Error) : Response :=
  mkResponse 400 false (Some (errMessage e)) None NoBody.

Definition unavailable (e : Error) : Response :=
  mkResponse 503 false
    (Some "Service temporarily unavailable: Budget limit exceeded")
    (Some (errMessage e)) NoBody.

(** A method of the [blockchain] object, run on the server's chain. *)
Definition onChain {A} (m : M Blockchain A) : M Server A :=
  zoom blockchain set_blockchain m.

(** A method of [budgetMonitor], for a monitor that is defined. *)
Definition onMonitor {A} (monitor : BudgetMonitor) (m : M BudgetMonitor A) : M Server A :=
  zoom (fun _ => monitor) (fun monitor' => set_budgetMonitor (Some monitor')) m.

(** [app.post('/transaction/submit', ...)] *)
Definition postTransactionSubmit (now : Z) (transaction : option TransactionJson)
  : M Server Response :=
  try_catch
    (match transaction with
     | None => throw (mkError TypeError "Cannot read properties of undefined")
     | Some t =>
         tx <- Tx.construct (j_fromAddress t) (j_toAddress t) (j_amount t)
                 (j_transactionType t) (j_metadata t) now ;;
         let tx := set_signature (j_signature t) tx in
         onChain (addTransaction tx) ;;
         srv <- get ;;
         ret (ok (Some "Transaction added to pending pool")
                 (PendingBody (length (pendingTransactions (blockchain srv)))))
     end)
    (fun error => ret (badRequest error)).

(** [app.post('/mine', ...)] *)
Definition postMine (fuel : nat) (now : Z) (minerAddress : string)
    (energyData : option (gmap string string)) : M Server Response :=
  try_catch
    (srv <- get ;;
     let address :=
       if String.eqb minerAddress EmptyString then getAddress (nodeWallet srv)
       else minerAddress in
     onChain (minePendingTransactions fuel now address (default ∅ energyData)) ;;
     srv <- get ;;
     ret (ok (Some "Block mined successfully")
             (MinedBody address (getBalanceOfAddress (blockchain srv) address)
                        (length (chain (blockchain srv))))))
    (fun error => ret (badRequest error)).

(** [app.post('/energy/tokenize', ...)] *)
Definition postEnergyTokenize (now : Z) (providerAddress : string) (energyAmount : Z)
    (energySource : string) : M Server Response :=
  try_catch
    (tokens <- onChain (tokenizeEnergy now providerAddress energyAmount
                          (if String.eqb energySource EmptyString then "mixed"
                           else energySource)) ;;
     ret (ok (Some "Energy tokenized successfully")
             (TokenizedBody energyAmount tokens energySource)))
    (fun error => ret (badRequest error)).

(** The route handlers, by request. *)
Definition route (fuel : nat) (now : Z) (req : Request) : M Server Response :=
  match req with
  | GET_blockchain =>
      srv <- get ;;
      ret (ok None (ChainBody (chain (blockchain srv)) (length (chain (blockchain srv)))))
  | GET_balance address =>
      srv <- get ;;
      ret (ok None (BalanceBody address (getBalanceOfAddress (blockchain srv) address)))
  | GET_leaderboard =>
      srv <- get ;;
      ret (ok None (LeaderboardBody (getEnergyLeaderboard (blockchain srv))))
  | GET_validate =>
      srv <- get ;;
      let isValid := isChainValid (blockchain srv) in
      ret (ok (Some (if isValid then "Blockchain is valid" else "Blockchain is corrupted"))
              (ValidityBody isValid))
  | POST_transaction_submit transaction => postTransactionSubmit now transaction
  | POST_mine minerAddress energyData => postMine fuel now minerAddress energyData
  | POST_energy_tokenize providerAddress energyAmount energySource =>
      postEnergyTokenize now providerAddress energyAmount energySource
  end.

(** The budget tracking middleware: [app.use((req, res, next) => ...)].
    [next] is the rest of the handling of the request. *)
Definition budgetMiddleware (reqPath : string) (next : M Server Response)
  : M Server Response :=
  srv <- get ;;
  match budgetMonitor srv with
  | Some monitor =>
      let cost := estimateCost "api_call" None in
      rejected <-
        try_catch
          (onMonitor monitor (recordCost cost reqPath) ;; ret None)
          (fun error => ret (Some (unavailable error))) ;;
      match rejected with
      | Some response => ret response
      | None => next
      end
  | None => next
  end.

(** The application: the middleware, then the route. *)
Definition app (fuel : nat) (now : Z) (req : Request) : M Server Response :=
  budgetMiddleware (path req) (route fuel now req).

End WithEnvironment.
End Node.

(* ===================================================================== *)
(** ** Instances used to run the model *)
(* ===================================================================== *)

(** Exact rational arithmetic for the numbers of the budget monitor. *)
#[export] Instance QNumber : JsNumber := {|
  num := Q;
  lit := fun q => q;
  nadd := Qplus;
  nmul := Qmult;
  ndiv := Qdiv;
  nge := fun a b => Qle_bool b a;
  truthy := fun a => negb (Qeq_bool a 0);
  floorString := fun a => pretty (Qfloor a)
|}.

#[export] Instance TransactionType_eq_dec : EqDecision TransactionType.
Proof. solve_decision. Defined.

Definition typeCode (t : TransactionType) : nat :=
  match t with
  | transfer => 0
  | mining_reward => 1
  | energy_tokenize => 2
  | compute_allocate => 3
  | carbon_purchase => 4
  end.

Definition typeOfCode (n : nat) : TransactionType :=
  match n with
  | 0 => transfer
  | 1 => mining_reward
  | 2 => energy_tokenize
  | 3 => compute_allocate
  | _ => carbon_purchase
  end%nat.

#[export] Instance TransactionType_countable : Countable TransactionType.
Proof. refine (inj_countable' typeCode typeOfCode _). by intros []. Defined.

Definition payloadFields (p : Payload)
  : string * string * Z * TransactionType * gmap string string * Z :=
  (p_fromAddress p, p_toAddress p, p_amount p, p_transactionType p, p_metadata p,
   p_timestamp p).

(** A signature scheme that can be run: the signature of a payload is the
    binary code of the pair of the public key and the payload, the public
    key of a private key [k] is ["pub-k"], and the address of a public key
    [p] is ["addr-p"]. *)
Module EncodingSignatures.

Fixpoint bits (p : positive) : string :=
  match p with
  | xH => EmptyString
  | xO q => String "0" (bits q)
  | xI q => String "1" (bits q)
  end.

Definition tag (pk : string) (p : Payload) : string :=
  bits (encode (pk, payloadFields p)).

Fixpoint dropChars (n : nat) (s : string) : string :=
  match n, s with
  | S n', String _ rest => dropChars n' rest
  | _, _ => s
  end.

Definition keyOfAddress (address : string) : option string :=
  if String.prefix "addr-" address then Some (dropChars 5 address) else None.

#[export] Instance scheme : SignatureScheme := {|
  publicKeyOf := fun sk => "pub-" ++ sk;
  addressOf := fun pk => "addr-" ++ pk;
  publicKeyFor := keyOfAddress;
  signPayload := fun sk p => tag ("pub-" ++ sk) p;
  verifyPayload := fun pk p sig => String.eqb sig (tag pk p)
|}.

End EncodingSignatures.

(** A digest that can be run: two hexadecimal digits of a checksum of the
    fields, so that a nonce for two leading zeros is found within 256
    attempts. *)
Module ChecksumHash.
Import Tx.

Definition hexDigit (n : Z) : ascii :=
  if Z.ltb n 10 then ascii_of_nat (48 + Z.to_nat n)
  else ascii_of_nat (87 + Z.to_nat n).

Definition weight (tx : Transaction) : Z :=
  amount tx + timestamp tx
  + Z.of_nat (String.length (fromAddress tx) + String.length (toAddress tx)).

Definition checksum (index : nat) (timestamp : Z) (transactions : list Transaction)
    (previousHash : string) (nonce : nat) : Z :=
  (Z.of_nat index + timestamp + fold_right (fun tx acc => weight tx + acc) 0 transactions
   + Z.of_nat (String.length previousHash) + Z.of_nat nonce) mod 256.

#[export] Instance digest : HashFunction := {|
  blockDigest := fun index timestamp transactions previousHash nonce =>
    let h := checksum index timestamp transactions previousHash nonce in
    String (hexDigit (h / 16)) (String (hexDigit (h mod 16)) EmptyString)
|}.

End ChecksumHash.

(* ===================================================================== *)
(** ** Vocabulary of the statements *)
(* ===================================================================== *)

Module BudgetCalls.
Import Budget.
Section WithNumbers.
Context {JN : JsNumber}.

(** The calls that reach a monitor once it runs, apart from
    [resetShutdown]: the middleware's [recordCost], and the
    [checkBudgets] and [resetIfNeeded] of the timer. *)
Inductive Call :=
| call_recordCost (amount : num) (service : string)
| call_checkBudgets
| call_resetIfNeeded (now : Date).

Definition perform (c : Call) : M BudgetMonitor unit :=
  match c with
  | call_recordCost amount service => recordCost amount service
  | call_checkBudgets => checkBudgets
  | call_resetIfNeeded now => resetIfNeeded now
  end.

(** The monitor after a sequence of calls, whatever each call did. *)
Definition after (calls : list Call) (m : BudgetMonitor) : BudgetMonitor :=
  fold_left (fun m c => snd (perform c m)) calls m.

(** Spending has reached 100% of a limit, as [checkBudgets] computes it. *)
Definition limitReached (m : BudgetMonitor) : bool :=
  nge (dailyPercentage m) (lit 100) || nge (monthlyPercentage m) (lit 100).


(** What a call leaves alone: the limits, the two counters and the
    listeners. *)
Definition sameSpend (m m' : BudgetMonitor) : Prop :=
  dailySpend m' = dailySpend m /\ monthlySpend m' = monthlySpend m
  /\ maxDailySpend m' = maxDailySpend m /\ maxMonthlySpend m' = maxMonthlySpend m
  /\ listeners m' = listeners m.

Definition noExitOn (name : string) (m : BudgetMonitor) : Prop :=
  forall code, ~ In (name, ExitListener code) (listeners m).

End WithNumbers.
End BudgetCalls.

Module Ledger.
Import Tx Blk Chain.

(** Every transaction of every sealed block, in chain order. *)
Definition sealedTransactions (c : Blockchain) : list Transaction :=
  flat_map transactions (chain c).

(** [+amount] where the address receives, [-amount] where it sends. *)
Definition signedAmount (address : string) (tx : Transaction) : Z :=
  (if String.eqb (toAddress tx) address then amount tx else 0)
  - (if String.eqb (fromAddress tx) address then amount tx else 0).

Definition total (f : Transaction -> Z) (txs : list Transaction) : Z :=
  fold_right (fun tx acc => f tx + acc) 0 txs.


Definition set_transactions (txs : list Transaction) (b : Block) : Block :=
  mkBlock (index b) (Blk.timestamp b) txs (previousHash b) (nonce b)
          (Blk.difficulty b) (hash b).


(** Sealing changes the nonce and the hash of a block, nothing else. *)
Definition sameHeader (b b' : Block) : Prop :=
  index b' = index b /\ Blk.timestamp b' = Blk.timestamp b
  /\ transactions b' = transactions b /\ previousHash b' = previousHash b
  /\ Blk.difficulty b' = Blk.difficulty b.

(** The digest of a block, had it the nonce [n]. *)
Definition digestAt `{HashFunction} (b : Block) (n : nat) : string :=
  blockDigest (index b) (Blk.timestamp b) (transactions b) (previousHash b) n.

(** The block that [minePendingTransactions] hands to [mine]. *)
Definition candidateBlock (c : Blockchain) (latest : Block) (now : Z)
    (minerAddress : string) (energyData : gmap string string) : Block :=
  Blk.construct (length (chain c)) now
    (pendingTransactions c ++ [rewardTransaction c minerAddress energyData now])
    (hash latest) (Chain.difficulty c).

(** The calls of the public interface that change a chain. *)
Inductive Call :=
| call_addTransaction (tx : Transaction)
| call_tokenizeEnergy (now : Z) (providerAddress : string) (energyAmount : Z)
                      (energySource : string)
| call_minePendingTransactions (fuel : nat) (now : Z) (minerAddress : string)
                               (energyData : gmap string string).

(** The chain after a call, whether it returned or threw. *)
Definition perform `{SignatureScheme} `{HashFunction} (call : Call) (c : Blockchain)
  : Blockchain :=
  match call with
  | call_addTransaction tx => snd (addTransaction tx c)
  | call_tokenizeEnergy now p e s => snd (tokenizeEnergy now p e s c)
  | call_minePendingTransactions fuel now miner data =>
      snd (minePendingTransactions fuel now miner data c)
  end.

Definition after `{SignatureScheme} `{HashFunction} (calls : list Call) (c : Blockchain)
  : Blockchain :=
  fold_left (fun c call => perform call c) calls c.

(** The condition under which [addTransaction] refuses a transaction. *)
Definition refused `{SignatureScheme} (c : Blockchain) (tx : Transaction) : Prop :=
  (fromAddress tx = EmptyString \/ toAddress tx = EmptyString)
  \/ (isSystem tx = false /\ verifySignature tx = false)
  \/ (transferLike (transactionType tx) = true
      /\ getBalanceOfAddress c (fromAddress tx) < amount tx).



End Ledger.

Module SecretsClaims.
Import Secrets.


(** A secret manager is in the cache window of [secretName] at [now]. *)
Definition freshEntry (sm : SecretManager) (secretName : string) (now : Z)
  : option CacheEntry :=
  match cache sm !! secretName with
  | Some cached => if Z.ltb (now - timestamp cached) cacheTimeout then Some cached else None
  | None => None
  end.

Definition orNull (defaultValue : jsval) : jsval :=
  match defaultValue with JUndefined => JNull | d => d end.

End SecretsClaims.

(* ===================================================================== *)
(** ** Further vocabulary: events of the monitor, the block route *)
(* ===================================================================== *)

Module BudgetEvents.
Import Budget BudgetCalls.
Section WithNumbers.
Context {JN : JsNumber}.

(** The key under which [sendAlert] remembers an alert. *)
Definition alertKey (period : string) (percentage : num) : string :=
  period ++ "-" ++ floorString percentage.

(** How many ['shutdown'] events a log of emitted events holds. *)
Fixpoint shutdownCount (events : list Event) : nat :=
  match events with
  | [] => 0
  | ShutdownEvent _ _ _ :: rest => S (shutdownCount rest)
  | _ :: rest => shutdownCount rest
  end.

(** The listeners that [initializeServer] of [src/node.js] registers. *)
Definition serverListeners : list (string * Listener) :=
  [("alert", LogListener); ("shutdown", ExitListener 1)].

(** The monitor once [recordCost] has added [amount] to both counters,
    before it checks the budgets. *)
Definition charged (amount : num) (m : BudgetMonitor) : BudgetMonitor :=
  set_spend (nadd (dailySpend m) amount) (nadd (monthlySpend m) amount) m.

(** What the checks of the monitor can do to it, one step at a time: store
    a new alert key and emit the alert, or set the flag and emit the
    shutdown. *)
Inductive evolves : BudgetMonitor -> BudgetMonitor -> Prop :=
| evolves_none m : evolves m m
| evolves_alert m m' period percentage current limit :
    includes (alerts m) (alertKey period percentage) = false ->
    evolves
      (set_emitted (emitted m ++ [AlertEvent period percentage current limit])
         (set_alerts (alerts m ++ [alertKey period percentage]) m)) m' ->
    evolves m m'
| evolves_shutdown m m' period current limit :
    isShutdown m = false ->
    evolves
      (set_emitted (emitted m ++ [ShutdownEvent period current limit])
         (set_isShutdown true m)) m' ->
    evolves m m'.

(** The two checks of [checkBudgets], with the percentages and amounts
    that it computed from the monitor [ref] on entry. *)
Definition dailyCheck (ref : BudgetMonitor) : M BudgetMonitor unit :=
  if nge (dailyPercentage ref) (lit 100) then
    triggerShutdown "daily" (dailySpend ref) (maxDailySpend ref)
  else if nge (dailyPercentage ref) (alertThreshold ref) then
    sendAlert "daily" (dailyPercentage ref) (dailySpend ref) (maxDailySpend ref)
  else ret tt.

Definition monthlyCheck (ref : BudgetMonitor) : M BudgetMonitor unit :=
  if nge (monthlyPercentage ref) (lit 100) then
    triggerShutdown "monthly" (monthlySpend ref) (maxMonthlySpend ref)
  else if nge (monthlyPercentage ref) (alertThreshold ref) then
    sendAlert "monthly" (monthlyPercentage ref) (monthlySpend ref) (maxMonthlySpend ref)
  else ret tt.

(** The settings and counters of two monitors agree. *)
Definition sameSettings (m m' : BudgetMonitor) : Prop :=
  maxDailySpend m' = maxDailySpend m /\ maxMonthlySpend m' = maxMonthlySpend m
  /\ alertThreshold m' = alertThreshold m
  /\ dailySpend m' = dailySpend m /\ monthlySpend m' = monthlySpend m
  /\ lastResetDate m' = lastResetDate m /\ lastMonthResetDate m' = lastMonthResetDate m
  /\ listeners m' = listeners m.

(** The flag is set exactly when one ['shutdown'] event was emitted. *)
Definition shutdownOnce (m : BudgetMonitor) : Prop :=
  shutdownCount (emitted m) = if isShutdown m then 1%nat else 0%nat.


End WithNumbers.
End BudgetEvents.

Module BlockRoute.
Import Tx Blk Chain Node.
Section WithEnvironment.
Context {JN : JsNumber}.



End WithEnvironment.
End BlockRoute.

(* ===================================================================== *)
(** ** Scenarios *)
(* ===================================================================== *)

(** Concrete states on which the statements below are run. *)
Module Scenarios.
Import Budget BudgetCalls.

(** A monitor with a daily limit of 1 and a monthly limit of 100, before
    and after two costs of 0.6. *)
Definition smallBudget : BudgetMonitor :=
  new_BudgetMonitor (mkConfig (Some 1%Q) (Some 100%Q) None) (mkDate 2 10).
Definition afterOneCost : BudgetMonitor := snd (recordCost 0.6%Q "/mine" smallBudget).
Definition afterTwoCosts : BudgetMonitor := snd (recordCost 0.6%Q "/mine" afterOneCost).

(** A process whose environment sets [API_KEY] to the empty string, with
    no cloud service reachable, and a fresh manager on the provider
    ['env']. *)
Definition offline (name : string) : Secrets.reply Secrets.jsval :=
  Secrets.Rejects (mkError PlainError "network unreachable").
Definition emptyKeyWorld : Secrets.World :=
  Secrets.mkWorld {[ "API_KEY" := EmptyString ]}
                  (fun _ => Secrets.Rejects (mkError PlainError "network unreachable"))
                  offline offline.
Definition envManager : Secrets.SecretManager :=
  Secrets.new_SecretManager emptyKeyWorld false.

(** A process that selects the provider ['aws'] and sets [PORT]. *)
Definition awsWorld : Secrets.World :=
  Secrets.mkWorld {[ "SECRET_PROVIDER" := "aws"; "PORT" := "8080" ]}
                  (fun _ => Secrets.Rejects (mkError PlainError "network unreachable"))
                  offline offline.

(** Alice pays Bob 60; the same transaction signed by Alice; and the
    signed transaction with the amount raised to 61. *)
Definition alice : string := "addr-pub-alice".
Definition bob : string := "addr-pub-bob".

(** The chain of the scenarios of the specification: difficulty 2, a
    mining reward of 100 and 10 tokens per unit of energy, under the
    checksum digest; then mined once for ["M"] with an empty pool. *)
Definition genesisChain : Chain.Blockchain :=
  Chain.new_Blockchain (H := ChecksumHash.digest) 2 100 10.
Definition minedOnce : Chain.Blockchain :=
  snd (Chain.minePendingTransactions (H := ChecksumHash.digest) 256 1700 "M" ∅
         genesisChain).

(** The block that this mining sealed, and the chain in which its
    transactions are replaced by a forged reward, the stored hash left as
    it was. *)
Definition firstMined : Blk.Block :=
  default (Chain.genesisBlock (H := ChecksumHash.digest)) (Chain.chain minedOnce !! 1%nat).
Definition forgedReward : Tx.Transaction :=
  Tx.mkTransaction Tx.SYSTEM_ADDRESS "Mallory" 1000000 mining_reward ∅ 1700 None.
Definition tampered : Chain.Blockchain :=
  Chain.set_chain
    (<[1%nat := Ledger.set_transactions [forgedReward] firstMined]> (Chain.chain minedOnce))
    minedOnce.


(** A node on the genesis chain: before [initializeServer] has run, with
    the exhausted monitor, and with a monitor that has room. *)
Definition nodeWallet : Node.Wallet := Node.mkWallet "addr-pub-node" "wallet-node" "node".
Definition startingNode : Node.Server (JN := QNumber) :=
  Node.mkServer genesisChain None nodeWallet.
Definition exhaustedNode : Node.Server (JN := QNumber) :=
  Node.mkServer genesisChain (Some afterTwoCosts) nodeWallet.
Definition runningNode : Node.Server (JN := QNumber) :=
  Node.mkServer genesisChain (Some smallBudget) nodeWallet.

(** A node whose chain has no block, and the scenario of the
    specification for tokenization: 100 units of renewable energy for
    ["P"] on the genesis chain, then mined by ["M"]. *)
Definition uninitializedNode : Node.Server (JN := QNumber) :=
  Node.mkServer (Chain.mkBlockchain [] [] 2 100 10) (Some smallBudget) nodeWallet.

(** The body of a submission of Alice's payment without its signature. *)
Definition unsignedSubmission : Node.TransactionJson :=
  Node.mkTransactionJson alice bob 60 "transfer" ∅ None.

(** The small budget with 0.85 charged and the budgets not yet checked;
    and the calls of a day: three requests, a timer tick, and the tick
    after midnight. *)
Definition nearLimit : BudgetMonitor := BudgetEvents.charged 0.85%Q smallBudget.
Definition busyDay : list BudgetCalls.Call :=
  [call_recordCost 0.5%Q "/mine"; call_recordCost 0.4%Q "/stats"; call_checkBudgets;
   call_recordCost 0.3%Q "/mine"; call_recordCost 0.3%Q "/mine";
   call_resetIfNeeded (mkDate 3 10); call_checkBudgets].

(** The small budget one API call short of its daily limit, on a node
    without listeners and on a node with the listeners of
    [initializeServer]. *)
Definition almostSpent : BudgetMonitor := BudgetEvents.charged 0.9999%Q smallBudget.
Definition brinkNode : Node.Server (JN := QNumber) :=
  Node.mkServer genesisChain (Some almostSpent) nodeWallet.
Definition guardedMonitor : BudgetMonitor :=
  snd (Effects.bind (on "alert" LogListener) (fun _ => on "shutdown" (ExitListener 1))
         almostSpent).
Definition guardedNode : Node.Server (JN := QNumber) :=
  Node.mkServer genesisChain (Some guardedMonitor) nodeWallet.


Definition correctedWorld : Secrets.World :=
  Secrets.mkWorld {[ "MINING_REWARD" := "50"; "MINING_DIFFICULTY" := "3";
                     "PORT" := "9090" ]}
                  (fun _ => Secrets.Rejects (mkError PlainError "network unreachable"))
                  offline offline.

Definition gcpWorld : Secrets.World :=
  Secrets.mkWorld {[ "SECRET_PROVIDER" := "gcp" ]}
                  (fun _ => Secrets.Resolves "from-gcp")
                  (fun _ => Secrets.Resolves (Secrets.JString "from-aws"))
                  (fun _ => Secrets.Resolves (Secrets.JString "from-azure")).
Definition valuelessWorld : Secrets.World :=
  Secrets.mkWorld {[ "SECRET_PROVIDER" := "aws" ]}
                  (fun _ => Secrets.Resolves "from-gcp")
                  (fun _ => Secrets.Resolves Secrets.JUndefined)
                  (fun _ => Secrets.Resolves (Secrets.JString "from-azure")).

End Scenarios.

(* ===================================================================== *)
(** ** Facts about the budget monitor *)
(* ===================================================================== *)

Module BudgetFacts.
Import Budget BudgetCalls.
Section WithNumbers.
Context {JN : JsNumber}.

Lemma sameSpend_refl m : sameSpend m m.
Proof. repeat split. Qed.

Lemma sameSpend_trans m1 m2 m3 : sameSpend m1 m2 -> sameSpend m2 m3 -> sameSpend m1 m3.
Proof. unfold sameSpend. intuition congruence. Qed.

Lemma runListeners_state name ls m : snd (runListeners name ls m) = m.
Proof.
  induction ls as [|[n l] ls IH]; simpl; [reflexivity|].
  destruct (String.eqb n name); [destruct l|]; auto.
Qed.

Lemma runListeners_returns name ls m :
  (forall code, ~ In (name, ExitListener code) ls) ->
  runListeners name ls m = (Ret tt, m).
Proof.
  induction ls as [|[n l] ls IH]; simpl; intros Hno; [reflexivity|].
  destruct (String.eqb_spec n name) as [->|Hne].
  - destruct l as [|code].
    + apply IH. intros code Hin. apply (Hno code). now right.
    + exfalso. apply (Hno code). now left.
  - apply IH. intros code Hin. apply (Hno code). now right.
Qed.

Lemma runListeners_outcome name ls m :
  fst (runListeners name ls m) = Ret tt \/ exists code, fst (runListeners name ls m) = Exit code.
Proof.
  induction ls as [|[n l] ls IH]; simpl; [now left|].
  destruct (String.eqb n name); [destruct l|]; eauto.
Qed.

Lemma emit_state e m :
  snd (emit e m) = set_emitted (emitted m ++ [e]) m.
Proof.
  unfold emit, bind, modify, get. simpl.
  pose proof (runListeners_state (eventName e) (listeners m)
                (set_emitted (emitted m ++ [e]) m)) as Hs.
  destruct (runListeners _ _ _) as [[| | |] s]; simpl in *; congruence.
Qed.

Lemma emit_outcome e m :
  fst (emit e m) = Ret tt \/ exists code, fst (emit e m) = Exit code.
Proof.
  unfold emit, bind, modify, get. simpl.
  pose proof (runListeners_outcome (eventName e) (listeners m)
                (set_emitted (emitted m ++ [e]) m)) as Ho.
  destruct (runListeners _ _ _) as [[| | |] s]; simpl in *; auto.
Qed.

Lemma emit_returns e m :
  noExitOn (eventName e) m -> fst (emit e m) = Ret tt.
Proof.
  intros Hno. unfold emit, bind, modify, get. simpl.
  rewrite runListeners_returns; [reflexivity|]. exact Hno.
Qed.

(** [triggerShutdown] always leaves the flag set. *)
Lemma triggerShutdown_sets period current limit m :
  isShutdown (snd (triggerShutdown period current limit m)) = true
  /\ sameSpend m (snd (triggerShutdown period current limit m)).
Proof.
  unfold triggerShutdown, bind, get. simpl.
  destruct (isShutdown m) eqn:Hs; simpl; [split; [assumption|apply sameSpend_refl]|].
  unfold modify. simpl.
  pose proof (emit_state (ShutdownEvent period current limit) (set_isShutdown true m)) as He.
  destruct (emit _ _) as [[| | |] s]; simpl in *; subst s; simpl; repeat split.
Qed.

Lemma sendAlert_keeps period percentage current limit m :
  isShutdown (snd (sendAlert period percentage current limit m)) = isShutdown m
  /\ sameSpend m (snd (sendAlert period percentage current limit m)).
Proof.
  unfold sendAlert, bind, get. simpl.
  destruct (includes _ _); simpl; [split; [reflexivity|apply sameSpend_refl]|].
  unfold modify. simpl.
  match goal with |- context [emit ?e ?s] =>
    pose proof (emit_state e s) as He; destruct (emit e s) as [[| | |] s'] end;
    simpl in *; subst s'; simpl; repeat split.
Qed.

Lemma sendAlert_returns period percentage current limit m :
  noExitOn "alert" m ->
  fst (sendAlert period percentage current limit m) = Ret tt.
Proof.
  intros Hno. unfold sendAlert, bind, get. simpl.
  destruct (includes _ _); simpl; [reflexivity|].
  unfold modify. simpl.
  match goal with |- context [emit ?e ?s] =>
    pose proof (emit_returns e s) as He; pose proof (emit_state e s) as Hs;
    destruct (emit e s) as [[[]| | |] s'] end; simpl in *;
    try reflexivity; specialize (He Hno); discriminate.
Qed.

Lemma triggerShutdown_outcome period current limit m :
  fst (triggerShutdown period current limit m) = Ret tt
  \/ exists code, fst (triggerShutdown period current limit m) = Exit code.
Proof.
  unfold triggerShutdown, bind, get. simpl.
  destruct (isShutdown m); simpl; [now left|].
  unfold modify. simpl.
  match goal with |- context [emit ?e ?s] =>
    pose proof (emit_outcome e s) as He; destruct (emit e s) as [[[]| | |] s'] end;
    simpl in *; auto.
Qed.

Lemma sendAlert_outcome period percentage current limit m :
  fst (sendAlert period percentage current limit m) = Ret tt
  \/ exists code, fst (sendAlert period percentage current limit m) = Exit code.
Proof.
  unfold sendAlert, bind, get. simpl.
  destruct (includes _ _); simpl; [now left|].
  unfold modify. simpl.
  match goal with |- context [emit ?e ?s] =>
    pose proof (emit_outcome e s) as He; destruct (emit e s) as [[[]| | |] s'] end;
    simpl in *; auto.
Qed.

(** One of the two checks of [checkBudgets]. *)
Lemma check_facts (reached alerting : bool) period percentage current limit m :
  let r := (if reached then triggerShutdown period current limit
            else if alerting then sendAlert period percentage current limit
            else ret tt) m in
  sameSpend m (snd r)
  /\ (isShutdown m = true -> isShutdown (snd r) = true)
  /\ (reached = true -> isShutdown (snd r) = true)
  /\ (fst r = Ret tt \/ exists code, fst r = Exit code)
  /\ (reached = false -> noExitOn "alert" m -> fst r = Ret tt).
Proof.
  destruct reached; [|destruct alerting]; cbv zeta.
  - pose proof (triggerShutdown_sets period current limit m) as [Hs Hk].
    pose proof (triggerShutdown_outcome period current limit m) as Ho.
    repeat split; auto; try apply Hk. discriminate.
  - pose proof (sendAlert_keeps period percentage current limit m) as [Hs Hk].
    pose proof (sendAlert_outcome period percentage current limit m) as Ho.
    repeat split; auto; try apply Hk; try congruence.
    intros _. apply sendAlert_returns.
  - simpl. repeat split; auto. discriminate.
Qed.

Lemma checkBudgets_facts m :
  sameSpend m (snd (checkBudgets m))
  /\ (isShutdown m = true -> isShutdown (snd (checkBudgets m)) = true)
  /\ (limitReached m = true ->
      fst (checkBudgets m) = Ret tt \/ noExitOn "alert" m ->
      isShutdown (snd (checkBudgets m)) = true).
Proof.
  unfold checkBudgets, limitReached, bind, get. simpl.
  set (D := nge (dailyPercentage m) (lit 100)).
  set (Mo := nge (monthlyPercentage m) (lit 100)).
  pose proof (check_facts D (nge (dailyPercentage m) (alertThreshold m)) "daily"
                (dailyPercentage m) (dailySpend m) (maxDailySpend m) m) as H1.
  cbv zeta in H1.
  match type of H1 with sameSpend _ (snd ?t) /\ _ =>
    destruct t as [r1 s1] eqn:E1 end. simpl in H1.
  destruct H1 as (Hsame1 & Hkeep1 & Hreach1 & Hout1 & Hret1).
  pose proof (check_facts Mo (nge (monthlyPercentage m) (alertThreshold m)) "monthly"
                (monthlyPercentage m) (monthlySpend m) (maxMonthlySpend m) s1) as H2.
  cbv zeta in H2.
  match type of H2 with sameSpend _ (snd ?t) /\ _ =>
    destruct t as [r2 s2] eqn:E2 end. simpl in H2.
  destruct H2 as (Hsame2 & Hkeep2 & Hreach2 & Hout2 & Hret2).
  destruct r1 as [[]| | |]; simpl.
  - split; [eapply sameSpend_trans; eauto|].
    split; [auto|].
    intros Hlim _. apply orb_true_iff in Hlim as [HD|HM]; auto.
  - destruct Hout1 as [?|[? ?]]; discriminate.
  - destruct Hout1 as [?|[? ?]]; discriminate.
  - split; [assumption|]. split; [auto|].
    intros Hlim [Hr|Hno]; [discriminate|].
    destruct D eqn:HD; [auto|].
    specialize (Hret1 eq_refl Hno). discriminate.
Qed.

Lemma checkBudgets_outcome m :
  fst (checkBudgets m) = Ret tt \/ exists code, fst (checkBudgets m) = Exit code.
Proof.
  unfold checkBudgets, bind, get. simpl.
  pose proof (check_facts (nge (dailyPercentage m) (lit 100))
                (nge (dailyPercentage m) (alertThreshold m)) "daily"
                (dailyPercentage m) (dailySpend m) (maxDailySpend m) m) as H1.
  cbv zeta in H1. destruct H1 as (_ & _ & _ & Hout1 & _).
  match type of Hout1 with fst ?t = _ \/ _ => destruct t as [[[]| | |] s1] end;
    simpl in *; try (destruct Hout1 as [?|[? ?]]; discriminate); eauto.
  pose proof (check_facts (nge (monthlyPercentage m) (lit 100))
                (nge (monthlyPercentage m) (alertThreshold m)) "monthly"
                (monthlyPercentage m) (monthlySpend m) (maxMonthlySpend m) s1) as H2.
  cbv zeta in H2. destruct H2 as (_ & _ & _ & Hout2 & _).
  match type of Hout2 with fst ?t = _ \/ _ => destruct t as [[[]| | |] s2] end;
    simpl in *; try (destruct Hout2 as [?|[? ?]]; discriminate); eauto.
Qed.

(** A monitor that is shut down refuses to record, and keeps its state. *)
Lemma recordCost_shutdown amount service m :
  isShutdown m = true ->
  recordCost amount service m = (Throw (mkError PlainError shutdownMessage), m).
Proof. intros Hs. unfold recordCost, bind, get, throw. simpl. now rewrite Hs. Qed.

Lemma recordCost_running amount service m :
  isShutdown m = false ->
  recordCost amount service m
  = checkBudgets (set_spend (nadd (dailySpend m) amount) (nadd (monthlySpend m) amount) m).
Proof.
  intros Hs. unfold recordCost, bind, get, modify. simpl. rewrite Hs. simpl.
  destruct (checkBudgets _) as [[[]| | |] s]; reflexivity.
Qed.

(** [recordCost] throws only when the monitor is shut down. *)
Lemma recordCost_throws amount service m e :
  fst (recordCost amount service m) = Throw e ->
  isShutdown m = true /\ snd (recordCost amount service m) = m.
Proof.
  destruct (isShutdown m) eqn:Hs.
  - rewrite (recordCost_shutdown _ _ _ Hs). auto.
  - rewrite (recordCost_running _ _ _ Hs). intros Hthrow.
    destruct (checkBudgets_outcome
                (set_spend (nadd (dailySpend m) amount) (nadd (monthlySpend m) amount) m))
      as [H|[code H]]; rewrite H in Hthrow; discriminate.
Qed.

Lemma resetIfNeeded_flag now m :
  isShutdown (snd (resetIfNeeded now m)) = isShutdown m.
Proof.
  unfold resetIfNeeded, bind, get, when, modify, ret. simpl.
  destruct (negb (getDate now =? getDate (lastResetDate m))%nat); simpl;
    match goal with |- context [negb ?b] => destruct (negb b) end; reflexivity.
Qed.

Lemma perform_keeps_shutdown c m :
  isShutdown m = true -> isShutdown (snd (perform c m)) = true.
Proof.
  intros Hs. destruct c as [amount service| |now]; simpl.
  - now rewrite recordCost_shutdown.
  - destruct (checkBudgets_facts m) as (_ & Hkeep & _). auto.
  - now rewrite resetIfNeeded_flag.
Qed.

Lemma after_keeps_shutdown calls m :
  isShutdown m = true -> isShutdown (after calls m) = true.
Proof.
  revert m. induction calls as [|c calls IH]; intros m Hs; simpl; [assumption|].
  apply IH. now apply perform_keeps_shutdown.
Qed.

Lemma limitReached_sameSpend m m' :
  sameSpend m m' -> limitReached m' = limitReached m.
Proof.
  intros (Hd & Hm & Hxd & Hxm & _).
  unfold limitReached, dailyPercentage, monthlyPercentage. congruence.
Qed.

(** C9.  Once recorded spending reaches 100% of the daily or of the
    monthly limit, [isShutdown] is true: after the [recordCost] that
    reaches it, and after any [checkBudgets] that finds it reached (when
    the call returns, or when no listener of ['alert'] ends the process
    before the second check: [src/node.js] registers none that does).
    From then on the flag stays true under every sequence of
    [recordCost], [checkBudgets] and [resetIfNeeded] calls, while
    [resetShutdown] clears it; and while it is true [recordCost] throws
    'Service shutdown: Budget limit exceeded' and changes nothing. *)
Theorem shutdown_latch :
  (forall m amount service,
      isShutdown m = false ->
      limitReached (snd (recordCost amount service m)) = true ->
      fst (recordCost amount service m) = Ret tt \/ noExitOn "alert" m ->
      isShutdown (snd (recordCost amount service m)) = true)
  /\ (forall m,
      limitReached m = true ->
      fst (checkBudgets m) = Ret tt \/ noExitOn "alert" m ->
      isShutdown (snd (checkBudgets m)) = true)
  /\ (forall m calls, isShutdown m = true -> isShutdown (after calls m) = true)
  /\ (forall m adminKey, isShutdown (snd (resetShutdown adminKey m)) = false)
  /\ (forall m amount service,
      isShutdown m = true ->
      recordCost amount service m = (Throw (mkError PlainError shutdownMessage), m)
      /\ dailySpend (snd (recordCost amount service m)) = dailySpend m
      /\ monthlySpend (snd (recordCost amount service m)) = monthlySpend m).
Proof.
  split; [|split; [|split; [|split]]].
  - intros m amount service Hrun. rewrite (recordCost_running _ _ _ Hrun).
    set (m1 := set_spend _ _ m).
    destruct (checkBudgets_facts m1) as (Hsame & _ & Hreach).
    intros Hlim Hout. apply Hreach.
    + now rewrite <- (limitReached_sameSpend _ _ Hsame).
    + destruct Hout as [Hr|Hno]; [now left|right]. exact Hno.
  - intros m Hlim Hout. now apply checkBudgets_facts.
  - intros m calls. apply after_keeps_shutdown.
  - intros m adminKey. unfold resetShutdown, bind, modify. simpl.
    rewrite (surjective_pairing (emit ResetEvent (set_isShutdown false m))).
    pose proof (emit_state ResetEvent (set_isShutdown false m)) as He.
    destruct (emit ResetEvent (set_isShutdown false m)) as [[[]| | |] s];
      simpl in *; subst s; reflexivity.
  - intros m amount service Hs. rewrite (recordCost_shutdown _ _ _ Hs). auto.
Qed.

End WithNumbers.



(** With a daily limit of 1, the second cost of 0.6 shuts the monitor
    down; it stays so, and the next [recordCost] throws. *)
Lemma shutdown_latch_witness :
  isShutdown Scenarios.afterOneCost = false
  /\ isShutdown Scenarios.afterTwoCosts = true
  /\ isShutdown (after [call_recordCost 0.6%Q "/mine"; call_checkBudgets;
                        call_resetIfNeeded (mkDate 3 11)] Scenarios.afterTwoCosts) = true
  /\ recordCost 0.6%Q "/mine" Scenarios.afterTwoCosts
     = (Throw (mkError PlainError shutdownMessage), Scenarios.afterTwoCosts).
Proof.
  destruct (@shutdown_latch QNumber) as (Hreach & _ & Hstay & _ & Hthrow).
  assert (Htwo : isShutdown Scenarios.afterTwoCosts = true).
  { apply (Hreach Scenarios.afterOneCost 0.6%Q "/mine").
    - reflexivity.
    - reflexivity.
    - left. reflexivity. }
  split; [reflexivity|]. split; [exact Htwo|]. split.
  - apply Hstay. exact Htwo.
  - apply (Hthrow Scenarios.afterTwoCosts 0.6%Q "/mine" Htwo).
Defined.

End BudgetFacts.


(* ===================================================================== *)
(** ** Facts about the secret manager *)
(* ===================================================================== *)

Module SecretsFacts.
Import Secrets SecretsClaims.

Lemma await_state {A} (r : reply A) (sm : SecretManager) : snd (await r sm) = sm.
Proof. destruct r; reflexivity. Qed.

Lemma await_outcome {A} (r : reply A) (sm : SecretManager) :
  (exists a, fst (await r sm) = Ret a) \/ (exists e, fst (await r sm) = Throw e).
Proof. destruct r; simpl; eauto. Qed.

(** The lookup at the provider reads the manager and leaves it as it is;
    it returns or throws. *)
Lemma providerLookup_facts w secretName defaultValue sm :
  snd (providerLookup w secretName defaultValue sm) = sm
  /\ ((exists v, fst (providerLookup w secretName defaultValue sm) = Ret v)
      \/ (exists e, fst (providerLookup w secretName defaultValue sm) = Throw e)).
Proof.
  unfold providerLookup, bind, get. simpl.
  destruct (String.eqb (provider sm) "gcp").
  { unfold getGCPSecret. destruct (env_get w "GOOGLE_CLOUD_PROJECT_ID") as [| |p];
      simpl; eauto.
    destruct (String.eqb p EmptyString); simpl; eauto.
    unfold bind, get. simpl. destruct (gcpClient sm); simpl; eauto.
    destruct (accessSecretVersion w _); simpl; eauto. }
  destruct (String.eqb (provider sm) "aws").
  { unfold getAWSSecret, bind, get. simpl. destruct (awsClient sm); simpl; eauto.
    destruct (ssmSend w secretName); simpl; eauto. }
  destruct (String.eqb (provider sm) "azure").
  { unfold getAzureSecret, bind, get. simpl. destruct (azureClient sm); simpl; eauto.
    destruct (keyVaultGetSecret w secretName); simpl; eauto. }
  simpl. eauto.
Qed.

Lemma providerLookup_env w secretName defaultValue sm :
  provider sm = "env" ->
  providerLookup w secretName defaultValue sm
  = (Ret (js_or (env_get w secretName) defaultValue), sm).
Proof. intros Hp. unfold providerLookup, bind, get. simpl. rewrite Hp. reflexivity. Qed.

(** [getSecret] on a fresh cache entry. *)
Lemma getSecret_hit w now fetched secretName defaultValue sm cached :
  freshEntry sm secretName now = Some cached ->
  getSecret w now fetched secretName defaultValue sm = (Ret (value cached), sm).
Proof.
  unfold freshEntry, getSecret, bind, get. simpl.
  destruct (cache sm !! secretName) as [c|]; [|discriminate].
  destruct (Z.ltb (now - timestamp c) cacheTimeout); [|discriminate].
  intros [= <-]. reflexivity.
Qed.

(** [getSecret] without a fresh cache entry, by what the provider does. *)
Lemma getSecret_miss w now fetched secretName defaultValue sm :
  freshEntry sm secretName now = None ->
  getSecret w now fetched secretName defaultValue sm
  = match fst (providerLookup w secretName (orNull defaultValue) sm) with
    | Ret v =>
        (Ret v, if js_truthy v
                then set_cache (<[secretName := mkEntry v fetched]> (cache sm)) sm
                else sm)
    | _ => (Ret (orNull defaultValue), sm)
    end.
Proof.
  intros Hfresh.
  destruct (providerLookup_facts w secretName (orNull defaultValue) sm) as [Hst Hout].
  unfold getSecret, bind, get. simpl.
  unfold freshEntry in Hfresh.
  assert (Hnone : match cache sm !! secretName with
                  | Some cached =>
                      if Z.ltb (now - timestamp cached) cacheTimeout
                      then Some (value cached) else None
                  | None => None
                  end = None).
  { destruct (cache sm !! secretName) as [c|]; [|reflexivity].
    destruct (Z.ltb (now - timestamp c) cacheTimeout); [discriminate|reflexivity]. }
  rewrite Hnone. unfold try_catch, bind. fold (orNull defaultValue).
  destruct (providerLookup w secretName (orNull defaultValue) sm) as [r s].
  simpl in Hst, Hout. subst s.
  destruct Hout as [[v Hv]|[e He]]; subst r; simpl; [|reflexivity].
  destruct (js_truthy v); reflexivity.
Qed.

Lemma freshEntry_cases sm secretName now :
  (exists cached, freshEntry sm secretName now = Some cached)
  \/ freshEntry sm secretName now = None.
Proof. destruct (freshEntry sm secretName now); eauto. Qed.





(** A default that was returned once is cached like a secret: within the
    window a call with another default gets the first one. *)
Example cached_default_is_returned :
  let sm := snd (getSecret Scenarios.emptyKeyWorld 0 0 "LOG_LEVEL" (JString "info")
                   Scenarios.envManager) in
  fst (getSecret Scenarios.emptyKeyWorld 1 1 "LOG_LEVEL" (JString "debug") sm)
  = Ret (JString "info").
Proof. reflexivity. Qed.

(** The empty string is returned without being cached. *)
Example empty_value_is_not_cached :
  getSecret Scenarios.emptyKeyWorld 0 0 "LOG_FILE" (JString EmptyString)
            Scenarios.envManager
  = (Ret (JString EmptyString), Scenarios.envManager).
Proof. reflexivity. Qed.

(** [getConfig] reads the token rate ['10'] when nothing is configured. *)
Example getConfig_defaults :
  fst (getConfig Scenarios.emptyKeyWorld 0 Scenarios.envManager)
  = Ret (mkLedgerConfig (Some 2) (Some 100) (Some 10)).
Proof. reflexivity. Qed.

End SecretsFacts.

(* ===================================================================== *)
(** ** Facts about transactions and their signatures *)
(* ===================================================================== *)

Module TxFacts.
Import Tx.




Section WithScheme.
Context {SS : SignatureScheme}.


Lemma sign_foreign tx sk :
  addressOf (publicKeyOf sk) <> fromAddress tx ->
  exists msg, sign sk tx = (Throw (mkError SigningError msg), tx).
Proof.
  intros Haddr. unfold sign, bind, get, throw. simpl.
  destruct (String.eqb_spec (addressOf (publicKeyOf sk)) (fromAddress tx)); [contradiction|].
  eauto.
Qed.





End WithScheme.


End TxFacts.

(* ===================================================================== *)
(** ** Facts about the chain: balances *)
(* ===================================================================== *)

Local Open Scope list_scope.

Module BalanceFacts.
Import Tx Blk Chain Ledger.

Lemma applyTransaction_signed address balance tx :
  applyTransaction address balance tx = balance + signedAmount address tx.
Proof.
  unfold applyTransaction, signedAmount.
  destruct (String.eqb (fromAddress tx) address), (String.eqb (toAddress tx) address); lia.
Qed.

Lemma replay_block address txs balance :
  fold_left (applyTransaction address) txs balance
  = balance + total (signedAmount address) txs.
Proof.
  revert balance. induction txs as [|tx txs IH]; intros balance; simpl; [lia|].
  rewrite IH, applyTransaction_signed. lia.
Qed.

Lemma total_app f txs txs' : total f (txs ++ txs') = total f txs + total f txs'.
Proof. induction txs as [|tx txs IH]; simpl; lia. Qed.


Lemma replay_chain address blocks balance :
  fold_left
    (fun balance block => fold_left (applyTransaction address) (transactions block) balance)
    blocks balance
  = balance + total (signedAmount address) (flat_map transactions blocks).
Proof.
  revert balance. induction blocks as [|b blocks IH]; intros balance; simpl; [lia|].
  rewrite IH, replay_block, total_app. lia.
Qed.

Lemma getBalanceOfAddress_total c address :
  getBalanceOfAddress c address = total (signedAmount address) (sealedTransactions c).
Proof. unfold getBalanceOfAddress, sealedTransactions. now rewrite replay_chain. Qed.

Lemma total_zero f txs : (forall tx, In tx txs -> f tx = 0) -> total f txs = 0.
Proof.
  induction txs as [|tx txs IH]; simpl; intros Hz; [reflexivity|].
  rewrite (Hz tx), IH; auto.
Qed.

Lemma signedAmount_stranger address tx :
  fromAddress tx <> address -> toAddress tx <> address -> signedAmount address tx = 0.
Proof.
  intros Hf Ht. unfold signedAmount.
  destruct (String.eqb_spec (toAddress tx) address); [contradiction|].
  destruct (String.eqb_spec (fromAddress tx) address); [contradiction|]. reflexivity.
Qed.

Lemma sealedTransactions_append c block :
  sealedTransactions (set_chain (chain c ++ [block]) c)
  = sealedTransactions c ++ transactions block.
Proof.
  unfold sealedTransactions. simpl. rewrite flat_map_app. simpl.
  now rewrite app_nil_r.
Qed.

(** C1.  [getBalanceOfAddress] is the sum, over the transactions of all
    sealed blocks in chain order, of [+amount] where the address is the
    recipient and [-amount] where it is the sender, system-issued credits
    included; the pending transactions play no part in it; and an address
    that no sealed transaction mentions has balance 0. *)
Theorem getBalanceOfAddress_replays_sealed :
  (forall c address,
      getBalanceOfAddress c address = total (signedAmount address) (sealedTransactions c))
  /\ (forall c address pending,
      getBalanceOfAddress (set_pending pending c) address = getBalanceOfAddress c address)
  /\ (forall c address,
      (forall tx, In tx (sealedTransactions c) ->
                  fromAddress tx <> address /\ toAddress tx <> address) ->
      getBalanceOfAddress c address = 0).
Proof.
  split; [apply getBalanceOfAddress_total|]. split; [reflexivity|].
  intros c address Hun. rewrite getBalanceOfAddress_total.
  apply total_zero. intros tx Hin. destruct (Hun tx Hin).
  now apply signedAmount_stranger.
Qed.

End BalanceFacts.

Module BalanceRuns.
Import Tx Blk Chain Ledger BalanceFacts.

(** On the chain mined once for ["M"], ["M"] holds the reward and an
    address that was never used holds nothing. *)
Lemma getBalanceOfAddress_replays_sealed_witness :
  getBalanceOfAddress Scenarios.minedOnce "M" = 100
  /\ getBalanceOfAddress Scenarios.minedOnce "nobody" = 0.
Proof.
  destruct getBalanceOfAddress_replays_sealed as (Hsum & _ & Hzero).
  split.
  - rewrite Hsum. reflexivity.
  - apply Hzero. intros tx Hin. vm_compute in Hin.
    destruct Hin as [<-|[]]. split; discriminate.
Defined.

End BalanceRuns.

(* ===================================================================== *)
(** ** Facts about the chain: sealing and validity *)
(* ===================================================================== *)

Module MiningFacts.
Import Tx Blk Chain Ledger.

Section WithDigest.
Context {HF : HashFunction}.

Lemma mineLoop_unfold fuel d b :
  mineLoop fuel d b
  = if meetsDifficulty (hash b) d then (Ret tt, b)
    else match fuel with
         | O => (Spin, b)
         | S fuel' => mineLoop fuel' d (rehash (set_nonce_hash (S (nonce b)) (hash b) b))
         end.
Proof.
  destruct fuel as [|fuel']; simpl; unfold bind, get; simpl;
    destruct (meetsDifficulty (hash b) d); try reflexivity;
    unfold modify; simpl;
    destruct (mineLoop fuel' d _) as [[[]| | |] b']; reflexivity.
Qed.

Lemma sameHeader_refl b : sameHeader b b.
Proof. repeat split. Qed.

Lemma sameHeader_trans b1 b2 b3 : sameHeader b1 b2 -> sameHeader b2 b3 -> sameHeader b1 b3.
Proof. unfold sameHeader. intuition congruence. Qed.

Lemma rehash_sealed b : hash (rehash b) = computeHash (rehash b).
Proof. reflexivity. Qed.

(** The loop ends with a sealed block or is still running. *)
Lemma mineLoop_facts fuel d b :
  hash b = computeHash b ->
  (exists b', mineLoop fuel d b = (Spin, b'))
  \/ (exists b', mineLoop fuel d b = (Ret tt, b')
                 /\ sameHeader b b' /\ hash b' = computeHash b'
                 /\ meetsDifficulty (hash b') d = true).
Proof.
  revert b. induction fuel as [|fuel IH]; intros b Hb; rewrite mineLoop_unfold.
  - destruct (meetsDifficulty (hash b) d) eqn:Hm; [right|left; eauto].
    exists b. auto using sameHeader_refl.
  - destruct (meetsDifficulty (hash b) d) eqn:Hm.
    + right. exists b. auto using sameHeader_refl.
    + set (b1 := rehash (set_nonce_hash (S (nonce b)) (hash b) b)).
      destruct (IH b1 (rehash_sealed _)) as [Hspin|(b' & Hrun & Hsame & Hh & Hmeets)];
        [left; exact Hspin|right].
      exists b'. repeat split; auto; destruct Hsame as (H1 & H2 & H3 & H4 & H5);
        simpl in *; congruence.
Qed.

Lemma mine_unfold fuel d b : mine fuel d b = mineLoop fuel d (rehash b).
Proof.
  unfold mine, bind, modify. simpl.
  destruct (mineLoop fuel d (rehash b)) as [[[]| | |] b']; reflexivity.
Qed.

Lemma mine_facts fuel d b :
  (exists b', mine fuel d b = (Spin, b'))
  \/ (exists b', mine fuel d b = (Ret tt, b')
                 /\ sameHeader b b' /\ hash b' = computeHash b'
                 /\ meetsDifficulty (hash b') d = true).
Proof.
  rewrite mine_unfold.
  destruct (mineLoop_facts fuel d (rehash b) (rehash_sealed b))
    as [Hspin|(b' & Hrun & Hsame & Hrest)]; [now left|right].
  exists b'. split; [assumption|]. split; [|assumption].
  destruct Hsame as (H1 & H2 & H3 & H4 & H5). repeat split; simpl in *; congruence.
Qed.

(** When some nonce meets the target, fuel up to that nonce is enough. *)
Lemma mineLoop_finds k : forall fuel d b,
  hash b = digestAt b (nonce b) ->
  meetsDifficulty (digestAt b (nonce b + k)%nat) d = true ->
  (k <= fuel)%nat ->
  fst (mineLoop fuel d b) = Ret tt.
Proof.
  induction k as [|k IH]; intros fuel d b Hb Hgood Hfuel; rewrite mineLoop_unfold.
  - rewrite Nat.add_0_r, <- Hb in Hgood. now rewrite Hgood.
  - destruct (meetsDifficulty (hash b) d); [reflexivity|].
    destruct fuel as [|fuel]; [lia|].
    apply IH; [reflexivity| |lia].
    unfold digestAt in *. simpl. now rewrite <- Nat.add_succ_comm in Hgood.
Qed.

Lemma mine_finds n fuel d b :
  (nonce b <= n)%nat ->
  meetsDifficulty (digestAt b n) d = true -> (n <= fuel)%nat ->
  fst (mine fuel d b) = Ret tt.
Proof.
  intros Hle Hgood Hfuel. rewrite mine_unfold.
  apply (mineLoop_finds (n - nonce b)); [reflexivity| |lia].
  unfold digestAt in *. simpl. now replace (nonce b + (n - nonce b))%nat with n by lia.
Qed.

Lemma minePendingTransactions_cases c fuel now minerAddress energyData :
  match last (chain c) with
  | None =>
      exists msg,
        minePendingTransactions fuel now minerAddress energyData c
        = (Throw (mkError MiningError msg), c)
  | Some latest =>
      minePendingTransactions fuel now minerAddress energyData c = (Spin, c)
      \/ exists sealed,
           mine fuel (Chain.difficulty c) (candidateBlock c latest now minerAddress energyData)
           = (Ret tt, sealed)
           /\ minePendingTransactions fuel now minerAddress energyData c
              = (Ret tt, set_pending [] (set_chain (chain c ++ [sealed]) c))
  end.
Proof.
  unfold minePendingTransactions, bind, get. simpl.
  destruct (last (chain c)) as [latest|]; [|simpl; eauto].
  fold (candidateBlock c latest now minerAddress energyData).
  unfold runOn.
  destruct (mine_facts fuel (Chain.difficulty c)
              (candidateBlock c latest now minerAddress energyData))
    as [(b' & Hspin)|(sealed & Hrun & _)].
  - rewrite Hspin. now left.
  - rewrite Hrun. right. exists sealed. split; reflexivity.
Qed.

(** A call of [minePendingTransactions] that does not return leaves the
    chain object as it was. *)
Lemma minePendingTransactions_atomic c fuel now minerAddress energyData :
  fst (minePendingTransactions fuel now minerAddress energyData c) <> Ret tt ->
  snd (minePendingTransactions fuel now minerAddress energyData c) = c.
Proof.
  pose proof (minePendingTransactions_cases c fuel now minerAddress energyData) as H.
  destruct (last (chain c)) as [latest|].
  - destruct H as [->|(sealed & _ & ->)]; simpl; [reflexivity|congruence].
  - destruct H as (msg & ->). reflexivity.
Qed.

Lemma minePendingTransactions_throws c fuel now minerAddress energyData e :
  fst (minePendingTransactions fuel now minerAddress energyData c) = Throw e ->
  last (chain c) = None /\ errKind e = MiningError.
Proof.
  pose proof (minePendingTransactions_cases c fuel now minerAddress energyData) as H.
  destruct (last (chain c)) as [latest|].
  - destruct H as [->|(sealed & _ & ->)]; discriminate.
  - destruct H as (msg & ->). simpl. intros [= <-]. auto.
Qed.

(** What a sealed candidate looks like. *)
Lemma sealed_candidate c latest fuel now minerAddress energyData sealed :
  mine fuel (Chain.difficulty c) (candidateBlock c latest now minerAddress energyData)
  = (Ret tt, sealed) ->
  index sealed = length (chain c)
  /\ transactions sealed
     = pendingTransactions c ++ [rewardTransaction c minerAddress energyData now]
  /\ previousHash sealed = hash latest
  /\ Blk.difficulty sealed = Chain.difficulty c
  /\ hash sealed = computeHash sealed
  /\ meetsDifficulty (hash sealed) (Chain.difficulty c) = true.
Proof.
  intros Hrun.
  destruct (mine_facts fuel (Chain.difficulty c)
              (candidateBlock c latest now minerAddress energyData))
    as [(b' & Hspin)|(b' & Hrun' & Hsame & Hh & Hm)]; [congruence|].
  rewrite Hrun in Hrun'. injection Hrun' as <-.
  destruct Hsame as (H1 & H2 & H3 & H4 & H5). simpl in *.
  repeat split; assumption.
Qed.

End WithDigest.
End MiningFacts.

(* ===================================================================== *)
(** ** Facts about the chain: admission *)
(* ===================================================================== *)

Module AdmissionFacts.
Import Tx Blk Chain Ledger.

Section WithScheme.
Context {SS : SignatureScheme}.

Lemma addTransaction_cases tx c :
  (refused c tx
   /\ exists msg, addTransaction tx c = (Throw (mkError InvalidTransactionError msg), c))
  \/ (~ refused c tx
      /\ addTransaction tx c = (Ret tt, set_pending (pendingTransactions c ++ [tx]) c)).
Proof.
  unfold addTransaction, refused, bind, get, throw, modify. simpl.
  destruct (String.eqb_spec (fromAddress tx) EmptyString) as [Hf|Hf]; simpl;
    [left; eauto|].
  destruct (String.eqb_spec (toAddress tx) EmptyString) as [Ht|Ht]; simpl;
    [left; eauto|].
  destruct (isSystem tx) eqn:Hsys; simpl.
  - destruct (transferLike (transactionType tx)) eqn:Hlike; simpl.
    + destruct (Z.ltb_spec (getBalanceOfAddress c (fromAddress tx)) (amount tx)).
      * left. eauto 6.
      * right. split; [|reflexivity]. intros [[?|?]|[[? ?]|[? ?]]]; congruence || lia.
    + right. split; [|reflexivity]. intros [[?|?]|[[? ?]|[? ?]]]; congruence.
  - destruct (verifySignature tx) eqn:Hver; simpl; [|left; eauto 6].
    destruct (transferLike (transactionType tx)) eqn:Hlike; simpl.
    + destruct (Z.ltb_spec (getBalanceOfAddress c (fromAddress tx)) (amount tx)).
      * left. eauto 6.
      * right. split; [|reflexivity]. intros [[?|?]|[[? ?]|[? ?]]]; congruence || lia.
    + right. split; [|reflexivity]. intros [[?|?]|[[? ?]|[? ?]]]; congruence.
Qed.



Lemma addTransaction_chain tx c : chain (snd (addTransaction tx c)) = chain c.
Proof.
  destruct (addTransaction_cases tx c) as [(_ & msg & ->)|(_ & ->)]; reflexivity.
Qed.

Lemma addTransaction_atomic tx c :
  fst (addTransaction tx c) <> Ret tt -> snd (addTransaction tx c) = c.
Proof.
  destruct (addTransaction_cases tx c) as [(_ & msg & ->)|(_ & ->)]; simpl;
    [reflexivity|congruence].
Qed.

End WithScheme.

Lemma tokenizeEnergy_cases now providerAddress energyAmount energySource c :
  (energyAmount <= 0
   /\ exists msg,
        tokenizeEnergy now providerAddress energyAmount energySource c
        = (Throw (mkError ValidationError msg), c))
  \/ (0 < energyAmount
      /\ tokenizeEnergy now providerAddress energyAmount energySource c
         = (Ret (energyAmount * energyToTokenRate c),
            set_pending
              (pendingTransactions c
                 ++ [tokenizeTransaction providerAddress
                       (energyAmount * energyToTokenRate c) energySource now]) c)).
Proof.
  unfold tokenizeEnergy.
  destruct (Z.leb_spec energyAmount 0); [left|right]; split; try lia; eauto.
Qed.

Lemma tokenizeEnergy_chain now providerAddress energyAmount energySource c :
  chain (snd (tokenizeEnergy now providerAddress energyAmount energySource c)) = chain c.
Proof.
  destruct (tokenizeEnergy_cases now providerAddress energyAmount energySource c)
    as [(_ & msg & ->)|(_ & ->)]; reflexivity.
Qed.

End AdmissionFacts.

(* ===================================================================== *)
(** ** Facts about the chain: validity and mining *)
(* ===================================================================== *)

Module ValidityFacts.
Import Tx Blk Chain Ledger BalanceFacts MiningFacts AdmissionFacts.

Section WithDigest.
Context {HF : HashFunction}.

Lemma blockChecks_true previous current :
  blockChecks previous current = true
  <-> hash current = computeHash current
      /\ previousHash current = hash previous
      /\ meetsDifficulty (hash current) (Blk.difficulty current) = true.
Proof.
  unfold blockChecks.
  destruct (String.eqb_spec (hash current) (computeHash current));
    destruct (String.eqb_spec (previousHash current) (hash previous));
    destruct (meetsDifficulty (hash current) (Blk.difficulty current));
    simpl; intuition congruence.
Qed.

Lemma blockChecks_false previous current :
  hash current <> computeHash current
  \/ previousHash current <> hash previous
  \/ meetsDifficulty (hash current) (Blk.difficulty current) = false ->
  blockChecks previous current = false.
Proof.
  intros Hbad. destruct (blockChecks previous current) eqn:Hc; [|reflexivity].
  apply blockChecks_true in Hc as (H1 & H2 & H3).
  destruct Hbad as [?|[?|?]]; congruence.
Qed.

Lemma validFrom_snoc rest : forall first latest b,
  last (first :: rest) = Some latest ->
  validFrom first (rest ++ [b]) = validFrom first rest && blockChecks latest b.
Proof.
  induction rest as [|r rest IH]; intros first latest b Hlast; simpl.
  - injection Hlast as <-. now destruct (blockChecks first b).
  - destruct (blockChecks first r); [|reflexivity].
    apply IH. exact Hlast.
Qed.

Lemma validFrom_fails rest : forall first i previous current,
  (first :: rest) !! i = Some previous ->
  (first :: rest) !! S i = Some current ->
  blockChecks previous current = false ->
  validFrom first rest = false.
Proof.
  induction rest as [|r rest IH]; intros first i previous current Hp Hc Hbad.
  - destruct i; discriminate.
  - destruct i as [|i]; simpl in *.
    + injection Hp as <-. injection Hc as <-. now rewrite Hbad.
    + destruct (blockChecks first r); [|reflexivity].
      eapply IH; eauto.
Qed.

Lemma isChainValid_fails c i previous current :
  chain c !! i = Some previous ->
  chain c !! S i = Some current ->
  blockChecks previous current = false ->
  isChainValid c = false.
Proof.
  unfold isChainValid. destruct (chain c) as [|first rest]; [discriminate|].
  apply validFrom_fails.
Qed.

Lemma isChainValid_append c latest b pending :
  last (chain c) = Some latest ->
  isChainValid (set_pending pending (set_chain (chain c ++ [b]) c))
  = isChainValid c && blockChecks latest b.
Proof.
  unfold isChainValid. simpl. destruct (chain c) as [|first rest]; [discriminate|].
  intros Hlast. simpl. now apply validFrom_snoc.
Qed.

Lemma minePendingTransactions_valid c fuel now minerAddress energyData :
  isChainValid c = true ->
  isChainValid (snd (minePendingTransactions fuel now minerAddress energyData c)) = true.
Proof.
  intros Hvalid.
  pose proof (minePendingTransactions_cases c fuel now minerAddress energyData) as H.
  destruct (last (chain c)) as [latest|] eqn:Hlast.
  - destruct H as [->|(sealed & Hmine & ->)]; simpl; [assumption|].
    rewrite (isChainValid_append c latest sealed [] Hlast), Hvalid. simpl.
    apply sealed_candidate in Hmine as (_ & _ & Hprev & Hd & Hh & Hm).
    apply blockChecks_true. rewrite Hd. auto.
  - destruct H as (msg & ->). assumption.
Qed.

Lemma isChainValid_chain c c' : chain c' = chain c -> isChainValid c' = isChainValid c.
Proof. unfold isChainValid. now intros ->. Qed.

Context {SS : SignatureScheme}.

Lemma perform_valid call c :
  isChainValid c = true -> isChainValid (perform call c) = true.
Proof.
  intros Hvalid. destruct call; simpl.
  - now rewrite (isChainValid_chain c _ (addTransaction_chain _ _)).
  - now rewrite (isChainValid_chain c _ (tokenizeEnergy_chain _ _ _ _ _)).
  - now apply minePendingTransactions_valid.
Qed.

Lemma after_valid calls c :
  isChainValid c = true -> isChainValid (after calls c) = true.
Proof.
  revert c. induction calls as [|call calls IH]; intros c Hvalid; simpl; [assumption|].
  apply IH. now apply perform_valid.
Qed.

(** C2.  A chain that grew from the genesis chain by calls of the public
    interface alone ([addTransaction], [tokenizeEnergy],
    [minePendingTransactions], in any number and order) passes
    [isChainValid].  A chain with a block at an index of 1 or more whose
    stored hash differs from the digest of its fields, or whose
    [previousHash] differs from the hash of the block before it, or whose
    hash misses the leading zeros of its recorded difficulty, fails it; in
    particular a block whose transactions were replaced in place, with a
    digest that no longer is the stored hash. *)
Theorem isChainValid_detects_tampering :
  (forall difficulty reward rate calls,
      isChainValid (after calls (new_Blockchain difficulty reward rate)) = true)
  /\ (forall c i previous current,
      chain c !! i = Some previous ->
      chain c !! S i = Some current ->
      hash current <> computeHash current
      \/ previousHash current <> hash previous
      \/ meetsDifficulty (hash current) (Blk.difficulty current) = false ->
      isChainValid c = false)
  /\ (forall c i current txs,
      chain c !! S i = Some current ->
      computeHash (set_transactions txs current) <> hash current ->
      isChainValid (set_chain (<[S i := set_transactions txs current]> (chain c)) c)
      = false).
Proof.
  split; [|split].
  - intros. now apply after_valid.
  - intros c i previous current Hp Hc Hbad.
    apply (isChainValid_fails c i previous current Hp Hc).
    now apply blockChecks_false.
  - intros c i current txs Hc Hdiff.
    assert (Hlt : (S i < length (chain c))%nat) by (eapply lookup_lt_Some; eauto).
    destruct (lookup_lt_is_Some_2 (chain c) i) as [previous Hp]; [lia|].
    eapply (isChainValid_fails _ i previous (set_transactions txs current)); simpl.
    + rewrite list_lookup_insert_ne by lia. exact Hp.
    + now apply list_lookup_insert_eq.
    + apply blockChecks_false. left. simpl. congruence.
Qed.

End WithDigest.
End ValidityFacts.

Module ValidityRuns.
Import Tx Blk Chain Ledger ValidityFacts.

(** The chain mined once is valid; with the transactions of its mined
    block replaced it is not. *)
Lemma isChainValid_detects_tampering_witness :
  isChainValid (H := ChecksumHash.digest) Scenarios.minedOnce = true
  /\ isChainValid (H := ChecksumHash.digest) Scenarios.tampered = false.
Proof.
  destruct (isChainValid_detects_tampering
              (HF := ChecksumHash.digest) (SS := EncodingSignatures.scheme))
    as (Hgrown & _ & Htamper).
  assert (Hgrew : Scenarios.minedOnce
                  = after (H := EncodingSignatures.scheme) (H0 := ChecksumHash.digest)
                      [call_minePendingTransactions 256 1700 "M" ∅]
                      (new_Blockchain (H := ChecksumHash.digest) 2 100 10))
    by (vm_compute; reflexivity).
  split.
  - rewrite Hgrew. apply Hgrown.
  - apply (Htamper Scenarios.minedOnce 0%nat Scenarios.firstMined
             [Scenarios.forgedReward]).
    + vm_compute. reflexivity.
    + vm_compute. discriminate.
Defined.

End ValidityRuns.

Module SealingFacts.
Import Tx Blk Chain Ledger BalanceFacts MiningFacts.

Section WithDigest.
Context {HF : HashFunction}.

Lemma minePendingTransactions_returns c fuel now minerAddress energyData c' :
  minePendingTransactions fuel now minerAddress energyData c = (Ret tt, c') ->
  exists latest sealed,
    last (chain c) = Some latest
    /\ mine fuel (Chain.difficulty c) (candidateBlock c latest now minerAddress energyData)
       = (Ret tt, sealed)
    /\ c' = set_pending [] (set_chain (chain c ++ [sealed]) c).
Proof.
  intros Hrun.
  pose proof (minePendingTransactions_cases c fuel now minerAddress energyData) as H.
  destruct (last (chain c)) as [latest|].
  - destruct H as [H|(sealed & Hmine & H)]; rewrite H in Hrun; [discriminate|].
    injection Hrun as <-. eauto.
  - destruct H as (msg & H). rewrite H in Hrun. discriminate.
Qed.

Lemma sealedTransactions_genesis difficulty reward rate :
  sealedTransactions (new_Blockchain difficulty reward rate) = [].
Proof. reflexivity. Qed.

(** C3.  A call of [minePendingTransactions] that returns has appended
    exactly one block to the chain: its transactions are the pending
    transactions of before followed by the one reward transaction (from
    the system sentinel to the miner, of the amount [miningReward], of
    type [mining_reward], with [energyData] as metadata), its
    [previousHash] is the hash of the block that was last, and the pending
    pool is empty afterwards.  The call returns, whatever the pool holds
    (an empty pool included), as soon as some nonce within the fuel meets
    the difficulty.  On a genesis chain with a reward of 100, mining once
    for ["M"] with an empty pool gives a chain of length 2 whose new block
    holds the reward alone, and ["M"] a balance of 100. *)
Theorem minePendingTransactions_appends_block :
  (forall c fuel now minerAddress energyData c',
      minePendingTransactions fuel now minerAddress energyData c = (Ret tt, c') ->
      exists latest sealed,
        last (chain c) = Some latest
        /\ chain c' = chain c ++ [sealed]
        /\ transactions sealed
           = pendingTransactions c
               ++ [mkTransaction SYSTEM_ADDRESS minerAddress (miningReward c)
                     mining_reward energyData now None]
        /\ previousHash sealed = hash latest
        /\ index sealed = length (chain c)
        /\ pendingTransactions c' = [])
  /\ (forall c latest n fuel now minerAddress energyData,
      last (chain c) = Some latest ->
      meetsDifficulty (digestAt (candidateBlock c latest now minerAddress energyData) n)
                      (Chain.difficulty c) = true ->
      (n <= fuel)%nat ->
      exists c', minePendingTransactions fuel now minerAddress energyData c = (Ret tt, c'))
  /\ (forall difficulty rate fuel now energyData c',
      minePendingTransactions fuel now "M" energyData (new_Blockchain difficulty 100 rate)
      = (Ret tt, c') ->
      length (chain c') = 2%nat
      /\ (exists sealed,
            chain c' = [genesisBlock; sealed]
            /\ transactions sealed
               = [mkTransaction SYSTEM_ADDRESS "M" 100 mining_reward energyData now None])
      /\ getBalanceOfAddress c' "M" = 100).
Proof.
  split; [|split].
  - intros c fuel now minerAddress energyData c' Hrun.
    apply minePendingTransactions_returns in Hrun as (latest & sealed & Hlast & Hmine & ->).
    apply sealed_candidate in Hmine as (Hi & Htx & Hprev & _).
    exists latest, sealed. repeat split; auto.
  - intros c latest n fuel now minerAddress energyData Hlast Hgood Hfuel.
    pose proof (minePendingTransactions_cases c fuel now minerAddress energyData) as H.
    rewrite Hlast in H.
    destruct H as [Hspin|(sealed & Hmine & H)]; [|eauto].
    exfalso.
    pose proof (mine_finds n fuel (Chain.difficulty c)
                  (candidateBlock c latest now minerAddress energyData)
                  (Nat.le_0_l n) Hgood Hfuel) as Hret.
    unfold minePendingTransactions, bind, get in Hspin. simpl in Hspin.
    rewrite Hlast in Hspin.
    fold (candidateBlock c latest now minerAddress energyData) in Hspin.
    unfold runOn in Hspin.
    destruct (mine fuel (Chain.difficulty c) _) as [[[]| | |] b']; simpl in *;
      discriminate.
  - intros difficulty rate fuel now energyData c' Hrun.
    apply minePendingTransactions_returns in Hrun as (latest & sealed & Hlast & Hmine & ->).
    apply sealed_candidate in Hmine as (_ & Htx & _). simpl in Htx.
    split; [reflexivity|]. split; [exists sealed; split; [reflexivity|exact Htx]|].
    rewrite getBalanceOfAddress_total.
    change (set_pending [] (set_chain (chain (new_Blockchain difficulty 100 rate) ++ [sealed])
                              (new_Blockchain difficulty 100 rate)))
      with (set_pending [] (set_chain ([genesisBlock] ++ [sealed])
                              (new_Blockchain difficulty 100 rate))).
    unfold sealedTransactions. simpl. rewrite Htx. reflexivity.
Qed.

End WithDigest.

(** Under the checksum digest and with fuel 256, the genesis chain of the
    scenario is mined: the candidate meets two leading zeros at nonce 84
    (the checksum of the candidate is 172 at nonce 0). *)
Lemma minePendingTransactions_appends_block_witness :
  exists c',
    minePendingTransactions (H := ChecksumHash.digest) 256 1700 "M" ∅ Scenarios.genesisChain
    = (Ret tt, c')
    /\ length (chain c') = 2%nat
    /\ pendingTransactions c' = []
    /\ getBalanceOfAddress c' "M" = 100.
Proof.
  destruct (minePendingTransactions_appends_block (HF := ChecksumHash.digest))
    as (Hblock & Hfinds & Hscenario).
  destruct (Hfinds Scenarios.genesisChain
              (genesisBlock (H := ChecksumHash.digest)) 74%nat 256%nat 1700 "M" ∅)
    as (c' & Hrun).
  - vm_compute. reflexivity.
  - vm_compute. reflexivity.
  - lia.
  - exists c'. split; [exact Hrun|].
    destruct (Hscenario 2%nat 10 256%nat 1700 ∅ c' Hrun) as (Hlen & _ & Hbal).
    destruct (Hblock _ _ _ _ _ _ Hrun) as (latest & sealed & _ & _ & _ & _ & _ & Hpend).
    auto.
Defined.

End SealingFacts.

(* ===================================================================== *)
(** ** Facts about the chain: what is admitted *)
(* ===================================================================== *)

Module AdmissionTheorems.
Import Tx Blk Chain Ledger BalanceFacts AdmissionFacts.

Section WithScheme.
Context {SS : SignatureScheme}.



End WithScheme.



End AdmissionTheorems.

(* ===================================================================== *)
(** ** Facts about the chain: the energy leaderboard *)
(* ===================================================================== *)

Module LeaderboardFacts.
Import Tx Blk Chain Ledger BalanceFacts.











Lemma insertRanked_sorted e ranked :
  Sorted (fun a b => snd b <= snd a) ranked ->
  Sorted (fun a b => snd b <= snd a) (insertRanked e ranked).
Proof.
  induction ranked as [|e' rest IH]; intros Hs; simpl.
  - repeat constructor.
  - destruct (Z.ltb_spec (snd e') (snd e)).
    + constructor; [exact Hs|]. constructor. lia.
    + inversion Hs as [|? ? Hrest Hhd]; subst.
      constructor; [now apply IH|].
      destruct rest as [|e'' rest']; simpl; [constructor; lia|].
      destruct (Z.ltb_spec (snd e'') (snd e)); constructor; [lia|].
      now inversion Hhd.
Qed.

(** The leaderboard is in descending order of the totals. *)
Lemma leaderboard_descending c :
  Sorted (fun a b => snd b <= snd a) (getEnergyLeaderboard c).
Proof.
  unfold getEnergyLeaderboard, rank.
  assert (H : forall totals ranked,
             Sorted (fun a b => snd b <= snd a) ranked ->
             Sorted (fun a b => snd b <= snd a)
                    (fold_left (fun ranked e => insertRanked e ranked) totals ranked)).
  { induction totals as [|e totals IH]; intros ranked Hs; simpl; [exact Hs|].
    apply IH. now apply insertRanked_sorted. }
  apply H. constructor.
Qed.


End LeaderboardFacts.

(* ===================================================================== *)
(** ** Facts about the HTTP node *)
(* ===================================================================== *)

Module NodeFacts.
Import Budget BudgetCalls BudgetFacts Tx Blk Chain Ledger Node.
Import BalanceFacts MiningFacts AdmissionFacts SealingFacts LeaderboardFacts.

Section WithEnvironment.
Context {JN : JsNumber} {SS : SignatureScheme} {HF : HashFunction}.

Lemma set_blockchain_same (srv : Server) : set_blockchain (blockchain srv) srv = srv.
Proof. now destruct srv. Qed.

Lemma onChain_run {A} (m : M Blockchain A) (srv : Server) :
  onChain m srv = (fst (m (blockchain srv)), set_blockchain (snd (m (blockchain srv))) srv).
Proof. unfold onChain, zoom. now destruct (m (blockchain srv)). Qed.

(** A monitor that is shut down makes the middleware answer 503; the
    rest of the handling is not run and the server is as before. *)
Lemma budgetMiddleware_shutdown (srv : Server) monitor reqPath next :
  budgetMonitor srv = Some monitor ->
  isShutdown monitor = true ->
  budgetMiddleware reqPath next srv
  = (Ret (unavailable (mkError PlainError shutdownMessage)), srv).
Proof.
  intros Hm Hs. unfold budgetMiddleware, bind, get. simpl. rewrite Hm.
  unfold try_catch, bind, onMonitor, zoom.
  rewrite (recordCost_shutdown _ _ _ Hs). simpl.
  f_equal. destruct srv; simpl in *. now rewrite Hm.
Qed.

(** The middleware neither reads nor writes the chain: run on a server
    with another chain, it decides alike and leaves that chain in place. *)
Lemma budgetMiddleware_ignores_chain (srv : Server) reqPath response c :
  budgetMiddleware reqPath (ret response) (set_blockchain c srv)
  = (fst (budgetMiddleware reqPath (ret response) srv),
     set_blockchain c (snd (budgetMiddleware reqPath (ret response) srv))).
Proof.
  unfold budgetMiddleware, bind, get. simpl.
  destruct (budgetMonitor srv) as [monitor|]; [|reflexivity].
  unfold try_catch, bind, onMonitor, zoom.
  destruct (recordCost (estimateCost "api_call" None) reqPath monitor) as [[[]| | |] m'];
    reflexivity.
Qed.

(** C8.  When the budget monitor is shut down, so that [recordCost]
    throws, the middleware answers every request with status 503: the
    route handler, and with it every operation of the core, is not run,
    whatever it is, and the server, its chain included, is as before.  The
    decision of the middleware does not depend on the chain, and the
    middleware never changes it. *)
Theorem budget_gate_precedes_core :
  (forall (srv : Server) monitor,
      budgetMonitor srv = Some monitor ->
      isShutdown monitor = true ->
      (forall reqPath next,
          exists response,
            budgetMiddleware reqPath next srv = (Ret response, srv)
            /\ status response = 503%nat /\ success response = false
            /\ message response = Some shutdownMessage)
      /\ (forall fuel now req,
          exists response,
            app fuel now req srv = (Ret response, srv) /\ status response = 503%nat))
  /\ (forall (srv : Server) reqPath response c,
      budgetMiddleware reqPath (ret response) (set_blockchain c srv)
      = (fst (budgetMiddleware reqPath (ret response) srv),
         set_blockchain c (snd (budgetMiddleware reqPath (ret response) srv)))).
Proof.
  split; [|apply budgetMiddleware_ignores_chain].
  intros srv monitor Hm Hs. split.
  - intros reqPath next. eexists. split; [now apply (budgetMiddleware_shutdown srv monitor)|].
    repeat split.
  - intros fuel now req. eexists. split;
      [unfold app; now apply (budgetMiddleware_shutdown srv monitor)|reflexivity].
Qed.

Lemma construct_cases {S} from to amt type meta now (s : S) :
  (exists e, errKind e = ValidationError
             /\ Tx.construct from to amt type meta now s = (Throw e, s))
  \/ (exists t, Tx.construct from to amt type meta now s
                = (Ret (mkTransaction from to amt t meta now None), s)).
Proof.
  unfold Tx.construct.
  destruct (Z.ltb amt 0); [left; eexists; split; [|reflexivity]; reflexivity|].
  destruct (String.eqb to EmptyString);
    [left; eexists; split; [|reflexivity]; reflexivity|].
  destruct (parseType type) as [t|];
    [right; eauto|left; eexists; split; [|reflexivity]; reflexivity].
Qed.

(** What [POST /transaction/submit] does, by what the core does. *)
Lemma postTransactionSubmit_run now t (srv : Server) :
  postTransactionSubmit now (Some t) srv
  = match Tx.construct (j_fromAddress t) (j_toAddress t) (j_amount t)
            (j_transactionType t) (j_metadata t) now srv with
    | (Ret tx, _) =>
        match addTransaction (set_signature (j_signature t) tx) (blockchain srv) with
        | (Ret _, c') =>
            (Ret (ok (Some "Transaction added to pending pool")
                     (PendingBody (length (pendingTransactions c')))),
             set_blockchain c' srv)
        | (Throw e, _) => (Ret (badRequest e), srv)
        | (_, _) => (Ret (badRequest (mkError PlainError EmptyString)), srv)
        end
    | (Throw e, _) => (Ret (badRequest e), srv)
    | (_, _) => (Ret (badRequest (mkError PlainError EmptyString)), srv)
    end.
Proof.
  unfold postTransactionSubmit, try_catch, bind.
  destruct (construct_cases (j_fromAddress t) (j_toAddress t) (j_amount t)
              (j_transactionType t) (j_metadata t) now srv) as [(e & _ & ->)|(ty & ->)];
    [reflexivity|].
  rewrite onChain_run.
  destruct (addTransaction_cases
              (set_signature (j_signature t)
                 (mkTransaction (j_fromAddress t) (j_toAddress t) (j_amount t) ty
                    (j_metadata t) now None)) (blockchain srv))
    as [(_ & msg & ->)|(_ & ->)]; simpl.
  - now rewrite set_blockchain_same.
  - reflexivity.
Qed.

(** What [POST /mine] does, by what the core does. *)
Lemma postMine_run fuel now minerAddress energyData (srv : Server) :
  let address := if String.eqb minerAddress EmptyString then getAddress (nodeWallet srv)
                 else minerAddress in
  postMine fuel now minerAddress energyData srv
  = match minePendingTransactions fuel now address (default ∅ energyData)
            (blockchain srv) with
    | (Ret _, c') =>
        (Ret (ok (Some "Block mined successfully")
                 (MinedBody address (getBalanceOfAddress c' address) (length (chain c')))),
         set_blockchain c' srv)
    | (Throw e, _) => (Ret (badRequest e), srv)
    | (Spin, _) => (Spin, srv)
    | (Exit n, _) => (Exit n, srv)
    end.
Proof.
  cbv zeta. unfold postMine, try_catch, bind, get. simpl. rewrite onChain_run.
  set (address := if String.eqb minerAddress EmptyString then getAddress (nodeWallet srv)
                  else minerAddress).
  pose proof (minePendingTransactions_atomic (blockchain srv) fuel now address
                (default ∅ energyData)) as Hatomic.
  destruct (minePendingTransactions fuel now address (default ∅ energyData)
              (blockchain srv)) as [[[]| | |] c']; simpl in *;
    try (rewrite Hatomic by discriminate; now rewrite set_blockchain_same).
  reflexivity.
Qed.

(** What [POST /energy/tokenize] does, by what the core does. *)
Lemma postEnergyTokenize_run now providerAddress energyAmount energySource (srv : Server) :
  let source := if String.eqb energySource EmptyString then "mixed" else energySource in
  postEnergyTokenize now providerAddress energyAmount energySource srv
  = match tokenizeEnergy now providerAddress energyAmount source (blockchain srv) with
    | (Ret tokens, c') =>
        (Ret (ok (Some "Energy tokenized successfully")
                 (TokenizedBody energyAmount tokens energySource)),
         set_blockchain c' srv)
    | (Throw e, _) => (Ret (badRequest e), srv)
    | (_, _) => (Ret (badRequest (mkError PlainError EmptyString)), srv)
    end.
Proof.
  cbv zeta. unfold postEnergyTokenize, try_catch, bind. rewrite onChain_run.
  destruct (tokenizeEnergy_cases now providerAddress energyAmount
              (if String.eqb energySource EmptyString then "mixed" else energySource)
              (blockchain srv)) as [(_ & msg & ->)|(_ & ->)]; simpl.
  - now rewrite set_blockchain_same.
  - reflexivity.
Qed.

(** A route that answers with a failure has left the server as it was. *)
Lemma route_failure fuel now req (srv srv' : Server) response :
  route fuel now req srv = (Ret response, srv') ->
  success response = false ->
  srv' = srv.
Proof.
  destruct req as [|address| | |transaction|minerAddress energyData
                   |providerAddress energyAmount energySource]; simpl;
    try (unfold bind, get, ret; simpl; intros [= <- <-]; discriminate).
  - destruct transaction as [t|].
    + rewrite postTransactionSubmit_run.
      destruct (Tx.construct _ _ _ _ _ _ srv) as [[tx| | |] s1];
        try (intros [= <- <-]; reflexivity).
      destruct (addTransaction _ (blockchain srv)) as [[[]| | |] c'];
        intros [= <- <-]; try reflexivity. discriminate.
    + unfold postTransactionSubmit, try_catch, throw. intros [= <- <-]. reflexivity.
  - pose proof (postMine_run fuel now minerAddress energyData srv) as Hrun.
    cbv zeta in Hrun. rewrite Hrun.
    destruct (minePendingTransactions _ _ _ _ (blockchain srv)) as [[[]| | |] c'];
      intros [= <- <-]; try reflexivity. discriminate.
  - pose proof (postEnergyTokenize_run now providerAddress energyAmount energySource srv)
      as Hrun.
    cbv zeta in Hrun. rewrite Hrun.
    destruct (tokenizeEnergy _ _ _ _ (blockchain srv)) as [[tokens| | |] c'];
      intros [= <- <-]; try reflexivity. discriminate.
Qed.

(** The middleware hands the request on without touching the chain. *)
Lemma app_chain_before_route fuel now req (srv srv' : Server) response :
  app fuel now req srv = (Ret response, srv') ->
  (srv' = srv /\ status response = 503%nat)
  \/ exists srv1, blockchain srv1 = blockchain srv
                  /\ route fuel now req srv1 = (Ret response, srv').
Proof.
  unfold app, budgetMiddleware, bind, get. simpl.
  destruct (budgetMonitor srv) as [monitor|] eqn:Hm; [|intros H; right; eauto].
  unfold try_catch, bind, onMonitor, zoom.
  destruct (recordCost (estimateCost "api_call" None) (path req) monitor)
    as [[[]|e| |n] m'] eqn:Hcost; simpl; try discriminate.
  - intros H. right. exists (set_budgetMonitor (Some m') srv). split; [reflexivity|exact H].
  - intros [= <- <-]. left. split; [|reflexivity].
    destruct (recordCost_throws (estimateCost "api_call" None) (path req) monitor e)
      as (_ & Hsame); [now rewrite Hcost|].
    rewrite Hcost in Hsame. simpl in Hsame. subst m'.
    destruct srv; simpl in *. now rewrite Hm.
Qed.

(** C7.  When the operation of the core that a mutating endpoint invokes
    throws (an [InvalidTransactionError], a [ValidationError], a
    [MiningError], or any other error), the handler of
    [POST /transaction/submit], of [POST /mine] and of
    [POST /energy/tokenize] answers with status 400, [success: false] and
    the message of the error, and the server, with its sealed chain and
    its pending pool, is as it was before the request.  For the whole
    application: whenever a request is answered with [success: false], the
    chain and the pending pool are those of before the request. *)
Theorem failed_mutation_is_not_applied :
  (forall (srv : Server) now t e,
      fst (Tx.construct (j_fromAddress t) (j_toAddress t) (j_amount t)
             (j_transactionType t) (j_metadata t) now srv) = Throw e
      \/ (exists tx,
            fst (Tx.construct (j_fromAddress t) (j_toAddress t) (j_amount t)
                   (j_transactionType t) (j_metadata t) now srv) = Ret tx
            /\ fst (addTransaction (set_signature (j_signature t) tx) (blockchain srv))
               = Throw e) ->
      postTransactionSubmit now (Some t) srv = (Ret (badRequest e), srv))
  /\ (forall (srv : Server) fuel now minerAddress energyData e,
      fst (minePendingTransactions fuel now
             (if String.eqb minerAddress EmptyString then getAddress (nodeWallet srv)
              else minerAddress)
             (default ∅ energyData) (blockchain srv)) = Throw e ->
      postMine fuel now minerAddress energyData srv = (Ret (badRequest e), srv))
  /\ (forall (srv : Server) now providerAddress energyAmount energySource e,
      fst (tokenizeEnergy now providerAddress energyAmount
             (if String.eqb energySource EmptyString then "mixed" else energySource)
             (blockchain srv)) = Throw e ->
      postEnergyTokenize now providerAddress energyAmount energySource srv
      = (Ret (badRequest e), srv))
  /\ (forall e,
      status (badRequest e) = 400%nat /\ success (badRequest e) = false
      /\ error (badRequest e) = Some (errMessage e))
  /\ (forall (srv srv' : Server) fuel now req response,
      app fuel now req srv = (Ret response, srv') ->
      success response = false ->
      blockchain srv' = blockchain srv).
Proof.
  split; [|split; [|split; [|split]]].
  - intros srv now t e Hthrows. rewrite postTransactionSubmit_run.
    destruct (Tx.construct _ _ _ _ _ _ srv) as [r s1]. simpl in Hthrows.
    destruct Hthrows as [->|(tx & -> & Hadd)]; [reflexivity|].
    destruct (addTransaction _ (blockchain srv)) as [r2 c']. simpl in Hadd.
    now subst r2.
  - intros srv fuel now minerAddress energyData e Hthrows.
    pose proof (postMine_run fuel now minerAddress energyData srv) as Hrun.
    cbv zeta in Hrun. rewrite Hrun.
    destruct (minePendingTransactions _ _ _ _ (blockchain srv)) as [r c'].
    simpl in Hthrows. now subst r.
  - intros srv now providerAddress energyAmount energySource e Hthrows.
    pose proof (postEnergyTokenize_run now providerAddress energyAmount energySource srv)
      as Hrun.
    cbv zeta in Hrun. rewrite Hrun.
    destruct (tokenizeEnergy _ _ _ _ (blockchain srv)) as [r c'].
    simpl in Hthrows. now subst r.
  - intros e. repeat split.
  - intros srv srv' fuel now req response Happ Hfail.
    apply app_chain_before_route in Happ as [[-> _]|(srv1 & Hchain & Hroute)];
      [reflexivity|].
    apply route_failure in Hroute; [|exact Hfail]. now subst srv'.
Qed.



End WithEnvironment.

(** On a node with room in its budget: tokenizing 0 units, submitting an
    unsigned payment, and mining on a chain without blocks are answered
    with 400 and change nothing. *)
Lemma failed_mutation_is_not_applied_witness :
  postEnergyTokenize 1700 "P" 0 "solar" Scenarios.runningNode
  = (Ret (badRequest (mkError ValidationError "Energy amount must be positive")),
     Scenarios.runningNode)
  /\ postTransactionSubmit (SS := EncodingSignatures.scheme)
       1700 (Some Scenarios.unsignedSubmission) Scenarios.runningNode
     = (Ret (badRequest (mkError InvalidTransactionError
                           "Cannot add invalid transaction to chain")),
        Scenarios.runningNode)
  /\ postMine (HF := ChecksumHash.digest)
       256 1700 "M" None Scenarios.uninitializedNode
     = (Ret (badRequest (mkError MiningError "Chain is not initialized")),
        Scenarios.uninitializedNode)
  /\ blockchain (snd (app (SS := EncodingSignatures.scheme) (HF := ChecksumHash.digest)
                        256 1700 (POST_energy_tokenize "P" 0 "solar")
                        Scenarios.runningNode))
     = Scenarios.genesisChain.
Proof.
  destruct (failed_mutation_is_not_applied (JN := QNumber)
              (SS := EncodingSignatures.scheme) (HF := ChecksumHash.digest))
    as (Hsubmit & Hmine & Htokenize & _ & Happ).
  split; [|split; [|split]].
  - apply Htokenize. vm_compute. reflexivity.
  - apply Hsubmit. right.
    exists (mkTransaction Scenarios.alice Scenarios.bob 60 transfer ∅ 1700 None).
    split; vm_compute; reflexivity.
  - apply Hmine. vm_compute. reflexivity.
  - apply (Happ Scenarios.runningNode _ 256%nat 1700 (POST_energy_tokenize "P" 0 "solar")
             (badRequest (mkError ValidationError "Energy amount must be positive"))).
    + vm_compute. reflexivity.
    + reflexivity.
Defined.


(** On the node whose monitor two costs have exhausted, a request to mine
    is answered with 503 and the node is as before. *)
Lemma budget_gate_precedes_core_witness :
  exists response,
    app (SS := EncodingSignatures.scheme) (HF := ChecksumHash.digest) 256 1700
        (POST_mine "M" None) Scenarios.exhaustedNode
    = (Ret response, Scenarios.exhaustedNode)
    /\ status response = 503%nat.
Proof.
  destruct (budget_gate_precedes_core (JN := QNumber) (SS := EncodingSignatures.scheme)
              (HF := ChecksumHash.digest)) as (Hgate & _).
  destruct (Hgate Scenarios.exhaustedNode Scenarios.afterTwoCosts) as (_ & Happ).
  - reflexivity.
  - vm_compute. reflexivity.
  - apply Happ.
Defined.

End NodeFacts.

(* ===================================================================== *)
(** ** More on the budget monitor: alerts, events, resets *)
(* ===================================================================== *)

Module BudgetMore.
Import Budget BudgetCalls BudgetEvents BudgetFacts.

Section WithNumbers.
Context {JN : JsNumber}.

Lemma emit_run e m :
  emit e m
  = (fst (runListeners (eventName e) (listeners m) (set_emitted (emitted m ++ [e]) m)),
     set_emitted (emitted m ++ [e]) m).
Proof.
  unfold emit, bind, modify, get. simpl.
  pose proof (runListeners_state (eventName e) (listeners m)
                (set_emitted (emitted m ++ [e]) m)) as Hs.
  pose proof (runListeners_outcome (eventName e) (listeners m)
                (set_emitted (emitted m ++ [e]) m)) as Ho.
  destruct (runListeners _ _ _) as [[[]| | |] s]; simpl in *; subst s;
    try reflexivity; destruct Ho as [?|[? ?]]; discriminate.
Qed.

Lemma sendAlert_run period percentage current limit m :
  sendAlert period percentage current limit m
  = if includes (alerts m) (alertKey period percentage) then (Ret tt, m)
    else emit (AlertEvent period percentage current limit)
           (set_alerts (alerts m ++ [alertKey period percentage]) m).
Proof.
  unfold sendAlert, bind, get, modify, alertKey. simpl.
  destruct (includes _ _); [reflexivity|]. simpl.
  rewrite emit_run. simpl.
  destruct (runListeners _ _ _) as [[[]| | |] s]; reflexivity.
Qed.

Lemma triggerShutdown_run period current limit m :
  triggerShutdown period current limit m
  = if isShutdown m then (Ret tt, m)
    else emit (ShutdownEvent period current limit) (set_isShutdown true m).
Proof.
  unfold triggerShutdown, bind, get, modify. simpl.
  destruct (isShutdown m); [reflexivity|]. simpl.
  rewrite emit_run. simpl.
  destruct (runListeners _ _ _) as [[[]| | |] s]; reflexivity.
Qed.

Lemma checkBudgets_unfold m :
  checkBudgets m
  = match dailyCheck m m with
    | (Ret _, s) => monthlyCheck m s
    | (Throw e, s) => (Throw e, s)
    | (Spin, s) => (Spin, s)
    | (Exit n, s) => (Exit n, s)
    end.
Proof. reflexivity. Qed.

Lemma evolves_trans m1 m2 m3 : evolves m1 m2 -> evolves m2 m3 -> evolves m1 m3.
Proof.
  intros H12. induction H12; intros H23; [assumption| |].
  - eapply evolves_alert; eauto.
  - eapply evolves_shutdown; eauto.
Qed.

Lemma sendAlert_evolves period percentage current limit m :
  evolves m (snd (sendAlert period percentage current limit m)).
Proof.
  rewrite sendAlert_run. destruct (includes _ _) eqn:Hin; [constructor|].
  rewrite emit_run. simpl. eapply evolves_alert; [exact Hin|constructor].
Qed.

Lemma triggerShutdown_evolves period current limit m :
  evolves m (snd (triggerShutdown period current limit m)).
Proof.
  rewrite triggerShutdown_run. destruct (isShutdown m) eqn:Hs; [constructor|].
  rewrite emit_run. simpl. eapply evolves_shutdown; [exact Hs|constructor].
Qed.

Lemma dailyCheck_evolves ref m : evolves m (snd (dailyCheck ref m)).
Proof.
  unfold dailyCheck. destruct (nge _ _); [apply triggerShutdown_evolves|].
  destruct (nge _ _); [apply sendAlert_evolves|constructor].
Qed.

Lemma monthlyCheck_evolves ref m : evolves m (snd (monthlyCheck ref m)).
Proof.
  unfold monthlyCheck. destruct (nge _ _); [apply triggerShutdown_evolves|].
  destruct (nge _ _); [apply sendAlert_evolves|constructor].
Qed.

(** [checkBudgets] only stores alerts, sets the flag and emits. *)
Lemma checkBudgets_evolves m : evolves m (snd (checkBudgets m)).
Proof.
  rewrite checkBudgets_unfold.
  pose proof (dailyCheck_evolves m m) as H1.
  destruct (dailyCheck m m) as [[[]| | |] s1]; simpl in *; try exact H1.
  eapply evolves_trans; [exact H1|apply monthlyCheck_evolves].
Qed.

Lemma includes_app l k k' :
  includes (l ++ [k']) k = includes l k || String.eqb k k'.
Proof.
  unfold includes. rewrite existsb_app. simpl. now rewrite orb_false_r.
Qed.

(** Along the steps the settings stay, the flag is never cleared and no
    alert key is forgotten. *)
Lemma evolves_frame m m' :
  evolves m m' ->
  sameSettings m m'
  /\ (isShutdown m = true -> isShutdown m' = true)
  /\ (forall k, includes (alerts m) k = true -> includes (alerts m') k = true).
Proof.
  induction 1 as [m|m m' period percentage current limit Hin Hev IH
                  |m m' period current limit Hs Hev IH].
  - repeat split; auto.
  - destruct IH as (Hsame & Hflag & Hkeys). simpl in *.
    split; [exact Hsame|]. split; [exact Hflag|].
    intros k Hk. apply Hkeys. rewrite includes_app, Hk. reflexivity.
  - destruct IH as (Hsame & Hflag & Hkeys). simpl in *.
    split; [exact Hsame|]. split; [auto|exact Hkeys].
Qed.

Lemma shutdownCount_app events events' :
  shutdownCount (events ++ events') = (shutdownCount events + shutdownCount events')%nat.
Proof.
  induction events as [|[| |] events IH]; simpl; auto.
Qed.

Lemma evolves_shutdownOnce m m' : evolves m m' -> shutdownOnce m -> shutdownOnce m'.
Proof.
  unfold shutdownOnce.
  induction 1 as [m|m m' period percentage current limit Hin Hev IH
                  |m m' period current limit Hs Hev IH]; intros Hinv.
  - exact Hinv.
  - apply IH. simpl. rewrite shutdownCount_app. simpl. lia.
  - apply IH. simpl. rewrite shutdownCount_app, Hinv, Hs. reflexivity.
Qed.

Lemma perform_evolves c m :
  isShutdown (snd (perform c m)) = isShutdown m /\ emitted (snd (perform c m)) = emitted m
  \/ exists m0, isShutdown m0 = isShutdown m /\ emitted m0 = emitted m
                /\ evolves m0 (snd (perform c m)).
Proof.
  destruct c as [amount service| |now]; simpl.
  - destruct (isShutdown m) eqn:Hs.
    + left. rewrite (recordCost_shutdown _ _ _ Hs). simpl. auto.
    + right. rewrite (recordCost_running _ _ _ Hs).
      eexists. split; [|split; [|apply checkBudgets_evolves]]; simpl; auto.
  - right. exists m. split; [|split]; auto using checkBudgets_evolves.
  - left. split; [apply resetIfNeeded_flag|].
    unfold resetIfNeeded, bind, get, when, modify, ret. simpl.
    destruct (negb (getDate now =? getDate (lastResetDate m))%nat); simpl;
      match goal with |- context [negb ?b] => destruct (negb b) end; reflexivity.
Qed.

(** After one of the two checks, whatever its outcome: the flag is set if
    the limit was reached, and the alert key is stored if only the
    threshold was. *)
Lemma check_settles (reached alerting : bool) period percentage current limit m :
  let r := (if reached then triggerShutdown period current limit
            else if alerting then sendAlert period percentage current limit
            else ret tt) m in
  (reached = true -> isShutdown (snd r) = true)
  /\ (reached = false -> alerting = true ->
      includes (alerts (snd r)) (alertKey period percentage) = true).
Proof.
  cbv zeta. destruct reached; [|destruct alerting].
  - split; [intros _|discriminate].
    apply (triggerShutdown_sets period current limit m).
  - split; [discriminate|intros _ _].
    rewrite sendAlert_run.
    destruct (includes (alerts m) (alertKey period percentage)) eqn:Hin; [exact Hin|].
    rewrite emit_run. simpl. rewrite includes_app, String.eqb_refl. apply orb_true_r.
  - split; discriminate.
Qed.

(** A check that finds the flag set, or the alert key stored, does
    nothing. *)
Lemma check_quiet (reached alerting : bool) period percentage current limit m :
  (reached = true -> isShutdown m = true) ->
  (reached = false -> alerting = true ->
   includes (alerts m) (alertKey period percentage) = true) ->
  (if reached then triggerShutdown period current limit
   else if alerting then sendAlert period percentage current limit
   else ret tt) m = (Ret tt, m).
Proof.
  intros Hflag Hkey. destruct reached; [|destruct alerting].
  - rewrite triggerShutdown_run, Hflag; reflexivity.
  - rewrite sendAlert_run, Hkey; reflexivity.
  - reflexivity.
Qed.

Lemma dailyCheck_ext ref ref' : sameSettings ref ref' -> dailyCheck ref' = dailyCheck ref.
Proof.
  intros (Hxd & Hxm & Hth & Hd & Hm & _).
  unfold dailyCheck, dailyPercentage. now rewrite Hxd, Hth, Hd.
Qed.

Lemma monthlyCheck_ext ref ref' :
  sameSettings ref ref' -> monthlyCheck ref' = monthlyCheck ref.
Proof.
  intros (Hxd & Hxm & Hth & Hd & Hm & _).
  unfold monthlyCheck, monthlyPercentage. now rewrite Hxm, Hth, Hm.
Qed.

(** X1.  [checkBudgets] is idempotent: when a call has returned, a second
    call right after it returns too and changes nothing: no alert is
    stored or emitted twice for the same percentage step, and no second
    shutdown is triggered. *)
Theorem checkBudgets_idempotent m :
  fst (checkBudgets m) = Ret tt ->
  checkBudgets (snd (checkBudgets m)) = (Ret tt, snd (checkBudgets m)).
Proof.
  intros Hret.
  pose proof (checkBudgets_evolves m) as Hev.
  apply evolves_frame in Hev as (Hsame & _ & _).
  rewrite (checkBudgets_unfold (snd (checkBudgets m))).
  rewrite (dailyCheck_ext m _ Hsame), (monthlyCheck_ext m _ Hsame).
  rewrite checkBudgets_unfold in *.
  pose proof (check_settles (nge (dailyPercentage m) (lit 100))
                (nge (dailyPercentage m) (alertThreshold m)) "daily"
                (dailyPercentage m) (dailySpend m) (maxDailySpend m) m) as Hd.
  cbv zeta in Hd. fold (dailyCheck m) in Hd.
  pose proof (dailyCheck_evolves m m) as Hev1.
  destruct (dailyCheck m m) as [[[]| | |] s1]; simpl in Hret, Hd, Hev1;
    try discriminate.
  pose proof (check_settles (nge (monthlyPercentage m) (lit 100))
                (nge (monthlyPercentage m) (alertThreshold m)) "monthly"
                (monthlyPercentage m) (monthlySpend m) (maxMonthlySpend m) s1) as Hm.
  cbv zeta in Hm. fold (monthlyCheck m) in Hm.
  pose proof (monthlyCheck_evolves m s1) as Hev2.
  apply evolves_frame in Hev2 as (_ & Hflag & Hkeys).
  destruct (monthlyCheck m s1) as [r2 s2]. simpl in *. subst r2.
  destruct Hd as (Hd1 & Hd2). destruct Hm as (Hm1 & Hm2).
  unfold dailyCheck at 1. rewrite check_quiet; [|auto|auto].
  unfold monthlyCheck. rewrite check_quiet; auto.
Qed.

(** X2.  From its construction on, and as long as [resetShutdown] is not
    called, the monitor has emitted ['shutdown'] exactly once when
    [isShutdown] is set and never when it is not: no sequence of
    [recordCost], [checkBudgets] and [resetIfNeeded] calls emits it a
    second time. *)
Theorem shutdown_emitted_once :
  (forall config now, shutdownOnce (new_BudgetMonitor config now))
  /\ (forall m calls, shutdownOnce m -> shutdownOnce (after calls m)).
Proof.
  split; [reflexivity|].
  intros m calls. revert m.
  induction calls as [|c calls IH]; intros m Hinv; simpl; [exact Hinv|].
  apply IH.
  destruct (perform_evolves c m) as [(Hflag & Hem)|(m0 & Hflag & Hem & Hev)].
  - unfold shutdownOnce in *. now rewrite Hflag, Hem.
  - apply (evolves_shutdownOnce m0 _ Hev). unfold shutdownOnce in *.
    now rewrite Hflag, Hem.
Qed.

Lemma includes_filter f alerts k :
  includes (List.filter f alerts) k = includes alerts k && f k.
Proof.
  unfold includes. induction alerts as [|a alerts IH]; simpl; [reflexivity|].
  destruct (f a) eqn:Hf; simpl; rewrite IH.
  - destruct (String.eqb_spec k a) as [->|]; simpl; [now rewrite Hf|reflexivity].
  - destruct (String.eqb_spec k a) as [->|]; simpl; [|reflexivity].
    rewrite Hf. now rewrite andb_false_r.
Qed.

Lemma daily_key_prefix percentage : String.prefix "daily-" (alertKey "daily" percentage) = true.
Proof. unfold alertKey. simpl. now destruct (floorString percentage). Qed.

(** X4.  [resetIfNeeded] does nothing while the day of the month and the
    month are those of the last resets.  On another day it sets the daily
    counter to 0 and forgets every daily alert key, so that a daily alert
    for a percentage already alerted is emitted again; it leaves
    [isShutdown] as it is, and, within the same month, the monthly
    counter and every other alert key. *)
Theorem resetIfNeeded_rearms_alerts :
  (forall m now,
      getDate now = getDate (lastResetDate m) ->
      getMonth now = getMonth (lastMonthResetDate m) ->
      resetIfNeeded now m = (Ret tt, m))
  /\ (forall m now,
      getDate now <> getDate (lastResetDate m) ->
      let m' := snd (resetIfNeeded now m) in
      fst (resetIfNeeded now m) = Ret tt
      /\ dailySpend m' = lit 0
      /\ lastResetDate m' = now
      /\ isShutdown m' = isShutdown m
      /\ (forall percentage current limit,
            includes (alerts m') (alertKey "daily" percentage) = false
            /\ emitted (snd (sendAlert "daily" percentage current limit m'))
               = emitted m ++ [AlertEvent "daily" percentage current limit])
      /\ (getMonth now = getMonth (lastMonthResetDate m) ->
          monthlySpend m' = monthlySpend m
          /\ forall k, String.prefix "daily-" k = false ->
                       includes (alerts m') k = includes (alerts m) k)).
Proof.
  split.
  - intros m now Hd Hm. unfold resetIfNeeded, bind, get, when, ret. simpl.
    rewrite Hd, Nat.eqb_refl. simpl. rewrite Hm, Nat.eqb_refl. reflexivity.
  - intros m now Hd. cbv zeta.
    unfold resetIfNeeded, bind, get, when, modify, ret. simpl.
    destruct (Nat.eqb_spec (getDate now) (getDate (lastResetDate m))) as [|_];
      [contradiction|]. simpl.
    destruct (Nat.eqb_spec (getMonth now) (getMonth (lastMonthResetDate m)))
      as [Hm|Hm]; simpl.
    + repeat split; try reflexivity.
      * rewrite includes_filter, daily_key_prefix. apply andb_false_r.
      * rewrite sendAlert_run. simpl.
        rewrite includes_filter, daily_key_prefix, andb_false_r.
        rewrite emit_run. reflexivity.
      * intros k Hk. rewrite includes_filter, Hk. apply andb_true_r.
    + repeat split; try reflexivity.
      * rewrite !includes_filter, daily_key_prefix. simpl.
        now rewrite andb_false_r.
      * rewrite sendAlert_run. simpl.
        rewrite !includes_filter, daily_key_prefix. simpl. rewrite andb_false_r. simpl.
        rewrite emit_run. reflexivity.
      * contradiction.
      * contradiction.
Qed.

End WithNumbers.






(** At 85% of the daily limit the first check stores and emits one alert,
    and the second check changes nothing. *)
Lemma checkBudgets_idempotent_witness :
  alerts (snd (checkBudgets Scenarios.nearLimit)) = ["daily-85"]
  /\ checkBudgets (snd (checkBudgets Scenarios.nearLimit))
     = (Ret tt, snd (checkBudgets Scenarios.nearLimit)).
Proof.
  split; [reflexivity|].
  apply (checkBudgets_idempotent (JN := QNumber) Scenarios.nearLimit). reflexivity.
Defined.

(** Over the calls of a busy day the small budget is shut down by the
    fourth request, and ['shutdown'] is in the log once. *)
Lemma shutdown_emitted_once_witness :
  isShutdown (after Scenarios.busyDay Scenarios.smallBudget) = true
  /\ shutdownCount (emitted (after Scenarios.busyDay Scenarios.smallBudget)) = 1%nat.
Proof.
  destruct (shutdown_emitted_once (JN := QNumber)) as (Hnew & Hkeep).
  assert (Hflag : isShutdown (after Scenarios.busyDay Scenarios.smallBudget) = true)
    by (vm_compute; reflexivity).
  split; [exact Hflag|].
  pose proof (Hkeep Scenarios.smallBudget Scenarios.busyDay
                (Hnew (mkConfig (Some 1%Q) (Some 100%Q) None) (mkDate 2 10))) as Honce.
  unfold shutdownOnce in Honce. now rewrite Hflag in Honce.
Defined.


(** The monitor at 85% alerts; the tick of the next day forgets the key,
    and the same alert is emitted again. *)
Lemma resetIfNeeded_rearms_alerts_witness :
  let alerted := snd (checkBudgets Scenarios.nearLimit) in
  let nextDay := snd (resetIfNeeded (mkDate 3 10) alerted) in
  includes (alerts alerted) "daily-85" = true
  /\ includes (alerts nextDay) (alertKey "daily" 85%Q) = false
  /\ dailySpend nextDay = 0%Q
  /\ resetIfNeeded (mkDate 2 10) alerted = (Ret tt, alerted).
Proof.
  cbv zeta.
  destruct (resetIfNeeded_rearms_alerts (JN := QNumber)) as (Hsame & Hnew).
  destruct (Hnew (snd (checkBudgets Scenarios.nearLimit)) (mkDate 3 10))
    as (_ & Hzero & _ & _ & Hkeys & _).
  - vm_compute. discriminate.
  - split; [reflexivity|]. split; [apply (Hkeys 85%Q 0%Q 0%Q)|].
    split; [exact Hzero|].
    apply Hsame; reflexivity.
Defined.

End BudgetMore.

(* ===================================================================== *)
(** ** More on the node: what the budget gate lets through *)
(* ===================================================================== *)

Module NodeMore.
Import Budget BudgetCalls BudgetEvents BudgetFacts BudgetMore Tx Blk Chain Node BlockRoute.

Section WithEnvironment.
Context {JN : JsNumber} {SS : SignatureScheme} {HF : HashFunction}.

Lemma checkBudgets_keeps_running m :
  isShutdown m = false -> limitReached m = false ->
  isShutdown (snd (checkBudgets m)) = false.
Proof.
  intros Hrun Hlim. apply orb_false_iff in Hlim as [HD HM].
  rewrite checkBudgets_unfold. unfold dailyCheck, monthlyCheck. rewrite HD, HM.
  assert (Hpart : forall (alerting : bool) period percentage current limit s,
             isShutdown
               (snd ((if alerting then sendAlert period percentage current limit
                      else ret tt) s)) = isShutdown s).
  { intros [] period percentage current limit s; [|reflexivity].
    apply (sendAlert_keeps period percentage current limit s). }
  pose proof (Hpart (nge (dailyPercentage m) (alertThreshold m)) "daily"
                (dailyPercentage m) (dailySpend m) (maxDailySpend m) m) as H1.
  match type of H1 with isShutdown (snd ?t) = _ =>
    destruct t as [[[]| | |] s1] end; simpl in *; try congruence.
  rewrite Hpart. congruence.
Qed.

Lemma triggerShutdown_returns period current limit m :
  noExitOn "shutdown" m -> fst (triggerShutdown period current limit m) = Ret tt.
Proof.
  intros Hno. rewrite triggerShutdown_run. destruct (isShutdown m); [reflexivity|].
  apply emit_returns. exact Hno.
Qed.

Lemma checkBudgets_returns m :
  noExitOn "alert" m -> noExitOn "shutdown" m -> fst (checkBudgets m) = Ret tt.
Proof.
  intros Ha Hs. rewrite checkBudgets_unfold.
  assert (Hpart : forall (reached alerting : bool) period percentage current limit s,
             listeners s = listeners m ->
             fst ((if reached then triggerShutdown period current limit
                   else if alerting then sendAlert period percentage current limit
                   else ret tt) s) = Ret tt).
  { intros [] alerting period percentage current limit s Hl.
    - apply triggerShutdown_returns. unfold noExitOn in *. now rewrite Hl.
    - destruct alerting; [|reflexivity].
      apply sendAlert_returns. unfold noExitOn in *. now rewrite Hl. }
  pose proof (Hpart (nge (dailyPercentage m) (lit 100))
                (nge (dailyPercentage m) (alertThreshold m)) "daily"
                (dailyPercentage m) (dailySpend m) (maxDailySpend m) m eq_refl) as H1.
  pose proof (dailyCheck_evolves m m) as Hev.
  unfold dailyCheck in *.
  match type of H1 with fst ?t = _ => destruct t as [r1 s1] end.
  simpl in H1, Hev. subst r1.
  apply evolves_frame in Hev as ((_ & _ & _ & _ & _ & _ & _ & Hl) & _).
  unfold monthlyCheck. now apply Hpart.
Qed.

(** The middleware on a monitor that is defined, by what [recordCost]
    does. *)
Lemma budgetMiddleware_run (srv : Server) monitor reqPath next :
  budgetMonitor srv = Some monitor ->
  budgetMiddleware reqPath next srv
  = match recordCost (estimateCost "api_call" None) reqPath monitor with
    | (Ret _, monitor') => next (set_budgetMonitor (Some monitor') srv)
    | (Throw e, monitor') =>
        (Ret (unavailable e), set_budgetMonitor (Some monitor') srv)
    | (Spin, monitor') => (Spin, set_budgetMonitor (Some monitor') srv)
    | (Exit n, monitor') => (Exit n, set_budgetMonitor (Some monitor') srv)
    end.
Proof.
  intros Hm. unfold budgetMiddleware, bind, get. simpl. rewrite Hm.
  unfold try_catch, bind, onMonitor, zoom.
  destruct (recordCost (estimateCost "api_call" None) reqPath monitor)
    as [[[]| | |] m']; reflexivity.
Qed.

(** X5.  The budget gate turns a request away only when the monitor was
    shut down before the request came in.  Without a monitor the request
    goes straight to its handler.  With a running monitor whose listeners
    do not end the process, the handler runs on a server whose two
    counters have grown by the cost of one API call, also when this very
    request takes the spending to a limit: that request is still served,
    and the monitor is shut down for the next ones. *)
Theorem exhausting_request_is_served :
  (forall (srv : Server) reqPath next,
      budgetMonitor srv = None -> budgetMiddleware reqPath next srv = next srv)
  /\ (forall (srv : Server) monitor reqPath next,
      budgetMonitor srv = Some monitor ->
      isShutdown monitor = false ->
      noExitOn "alert" monitor -> noExitOn "shutdown" monitor ->
      exists monitor',
        budgetMiddleware reqPath next srv = next (set_budgetMonitor (Some monitor') srv)
        /\ dailySpend monitor'
           = nadd (dailySpend monitor) (estimateCost "api_call" None)
        /\ monthlySpend monitor'
           = nadd (monthlySpend monitor) (estimateCost "api_call" None)
        /\ isShutdown monitor'
           = limitReached (charged (estimateCost "api_call" None) monitor)).
Proof.
  split.
  - intros srv reqPath next Hm. unfold budgetMiddleware, bind, get. simpl.
    now rewrite Hm.
  - intros srv monitor reqPath next Hm Hrun Ha Hs.
    rewrite (budgetMiddleware_run srv monitor reqPath next Hm).
    rewrite (recordCost_running _ _ _ Hrun).
    fold (charged (estimateCost "api_call" None) monitor).
    set (m1 := charged (estimateCost "api_call" None) monitor).
    pose proof (checkBudgets_returns m1 Ha Hs) as Hret.
    destruct (checkBudgets_facts m1) as ((Hd & Hmo & _) & _ & Hreach).
    pose proof (checkBudgets_keeps_running m1 Hrun) as Hkeep.
    destruct (checkBudgets m1) as [r m'] eqn:Hcheck. simpl in *. subst r.
    exists m'. split; [reflexivity|]. split; [exact Hd|]. split; [exact Hmo|].
    destruct (limitReached m1) eqn:Hlim.
    + apply Hreach; auto.
    + now apply Hkeep.
Qed.

Lemma emit_with_serverListeners e m :
  listeners m = serverListeners ->
  fst (emit e m)
  = match e with
    | ShutdownEvent _ _ _ => Exit 1
    | _ => Ret tt
    end.
Proof.
  intros Hl. rewrite emit_run. simpl. rewrite Hl. now destruct e.
Qed.

(** [recordCost] on a running monitor that has the listeners of
    [initializeServer]. *)
Lemma recordCost_with_serverListeners amount service m :
  listeners m = serverListeners ->
  isShutdown m = false ->
  let r := recordCost amount service m in
  listeners (snd r) = serverListeners
  /\ sameSpend (charged amount m) (snd r)
  /\ (limitReached (charged amount m) = true ->
      fst r = Exit 1 /\ isShutdown (snd r) = true)
  /\ (limitReached (charged amount m) = false ->
      fst r = Ret tt /\ isShutdown (snd r) = false).
Proof.
  intros Hl Hrun. cbv zeta. rewrite (recordCost_running _ _ _ Hrun).
  fold (charged amount m). set (m1 := charged amount m).
  assert (Hl1 : listeners m1 = serverListeners) by exact Hl.
  assert (Hrun1 : isShutdown m1 = false) by exact Hrun.
  clearbody m1.
  pose proof (checkBudgets_evolves m1) as Hev.
  apply evolves_frame in Hev as ((_ & _ & _ & _ & _ & _ & _ & Hls) & _).
  destruct (checkBudgets_facts m1) as (Hsame & _ & _).
  split; [congruence|]. split; [exact Hsame|].
  assert (Halert : forall (alerting : bool) period percentage current limit s,
             listeners s = serverListeners ->
             fst ((if alerting then sendAlert period percentage current limit
                   else ret tt) s) = Ret tt).
  { intros [] period percentage current limit s Hs; [|reflexivity].
    rewrite sendAlert_run. destruct (includes _ _); [reflexivity|].
    now rewrite emit_with_serverListeners. }
  assert (Htrigger : forall period current limit s,
             listeners s = serverListeners -> isShutdown s = false ->
             fst (triggerShutdown period current limit s) = Exit 1
             /\ isShutdown (snd (triggerShutdown period current limit s)) = true).
  { intros period current limit s Hs Hr.
    split; [|apply (triggerShutdown_sets period current limit s)].
    rewrite triggerShutdown_run, Hr. now rewrite emit_with_serverListeners. }
  unfold limitReached. rewrite checkBudgets_unfold. unfold dailyCheck, monthlyCheck.
  destruct (nge (dailyPercentage m1) (lit 100)) eqn:HD; simpl.
  - destruct (Htrigger "daily" (dailySpend m1) (maxDailySpend m1) m1 Hl1 Hrun1)
      as (Hexit & Hflag).
    destruct (triggerShutdown "daily" (dailySpend m1) (maxDailySpend m1) m1) as [r s1].
    simpl in *. subst r. split; [auto|discriminate].
  - pose proof (Halert (nge (dailyPercentage m1) (alertThreshold m1)) "daily"
                  (dailyPercentage m1) (dailySpend m1) (maxDailySpend m1) m1 Hl1) as H1.
    assert (Hs1 : let s1 := snd ((if nge (dailyPercentage m1) (alertThreshold m1)
                                  then sendAlert "daily" (dailyPercentage m1)
                                         (dailySpend m1) (maxDailySpend m1)
                                  else ret tt) m1) in
                  listeners s1 = serverListeners /\ isShutdown s1 = false).
    { cbv zeta. destruct (nge (dailyPercentage m1) (alertThreshold m1)); [|auto].
      destruct (sendAlert_keeps "daily" (dailyPercentage m1) (dailySpend m1)
                  (maxDailySpend m1) m1) as (Hf & _ & _ & _ & _ & Hls1).
      split; congruence. }
    cbv zeta in Hs1.
    match type of H1 with fst ?t = _ => destruct t as [r1 s1] end.
    simpl in H1, Hs1. subst r1. destruct Hs1 as (Hls1 & Hr1).
    destruct (nge (monthlyPercentage m1) (lit 100)) eqn:HM.
    + destruct (Htrigger "monthly" (monthlySpend m1) (maxMonthlySpend m1) s1 Hls1 Hr1)
        as (Hexit & Hflag).
      split; [auto|discriminate].
    + split; [discriminate|intros _].
      split; [apply Halert; exact Hls1|].
      destruct (nge (monthlyPercentage m1) (alertThreshold m1)); [|exact Hr1].
      destruct (sendAlert_keeps "monthly" (monthlyPercentage m1) (monthlySpend m1)
                  (maxMonthlySpend m1) s1) as (Hf & _). congruence.
Qed.

(** X6.  On a node that [initializeServer] has set up with a
    configuration, the monitor is running and has the two listeners of
    [src/node.js].  On such a node the request whose cost takes the
    spending to a limit ends the process with exit code 1: no handler
    runs, no response is sent, and the chain is untouched.  Every other
    request goes to its handler with the monitor still running and the
    listeners still in place, so the monitor of a live node is never shut
    down and its gate never answers 503. *)
Theorem initialized_node_exits_at_the_limit :
  (forall (srv : Server) config now,
      exists monitor,
        budgetMonitor (snd (initializeServer (Some config) now srv)) = Some monitor
        /\ listeners monitor = serverListeners /\ isShutdown monitor = false
        /\ blockchain (snd (initializeServer (Some config) now srv)) = blockchain srv)
  /\ (forall (srv : Server) monitor reqPath next,
      budgetMonitor srv = Some monitor ->
      listeners monitor = serverListeners ->
      isShutdown monitor = false ->
      (limitReached (charged (estimateCost "api_call" None) monitor) = true ->
       exists srv',
         budgetMiddleware reqPath next srv = (Exit 1, srv')
         /\ blockchain srv' = blockchain srv)
      /\ (limitReached (charged (estimateCost "api_call" None) monitor) = false ->
          exists monitor',
            budgetMiddleware reqPath next srv
            = next (set_budgetMonitor (Some monitor') srv)
            /\ listeners monitor' = serverListeners
            /\ isShutdown monitor' = false)).
Proof.
  split.
  - intros srv config now. eexists. split; [reflexivity|]. repeat split.
  - intros srv monitor reqPath next Hm Hl Hrun.
    rewrite (budgetMiddleware_run srv monitor reqPath next Hm).
    destruct (recordCost_with_serverListeners (estimateCost "api_call" None) reqPath
                monitor Hl Hrun) as (Hls & _ & Hreached & Hnot).
    destruct (recordCost (estimateCost "api_call" None) reqPath monitor) as [r m'].
    simpl in *. split.
    + intros Hlim. destruct (Hreached Hlim) as (-> & _). eexists. split; reflexivity.
    + intros Hlim. destruct (Hnot Hlim) as (-> & Hflag). exists m'. auto.
Qed.


End WithEnvironment.

(** One call short of the limit and without listeners, a request to
    validate is served, and leaves the monitor shut down. *)
Lemma exhausting_request_is_served_witness :
  exists monitor',
    app (SS := EncodingSignatures.scheme) (HF := ChecksumHash.digest) 256 1700
        GET_validate Scenarios.brinkNode
    = route (SS := EncodingSignatures.scheme) (HF := ChecksumHash.digest) 256 1700
        GET_validate (set_budgetMonitor (Some monitor') Scenarios.brinkNode)
    /\ isShutdown monitor' = true.
Proof.
  destruct (exhausting_request_is_served (JN := QNumber)) as (_ & Hserved).
  destruct (Hserved Scenarios.brinkNode Scenarios.almostSpent "/validate"
              (route (SS := EncodingSignatures.scheme) (HF := ChecksumHash.digest)
                 256 1700 GET_validate))
    as (monitor' & Hrun & _ & _ & Hflag).
  - reflexivity.
  - reflexivity.
  - intros code [].
  - intros code [].
  - exists monitor'. split; [exact Hrun|]. rewrite Hflag. reflexivity.
Defined.

(** One call short of the limit and with the listeners of
    [initializeServer], the same request ends the process. *)
Lemma initialized_node_exits_at_the_limit_witness :
  exists srv',
    app (SS := EncodingSignatures.scheme) (HF := ChecksumHash.digest) 256 1700
        GET_validate Scenarios.guardedNode
    = (Exit 1, srv')
    /\ blockchain srv' = Scenarios.genesisChain.
Proof.
  destruct (initialized_node_exits_at_the_limit (JN := QNumber)) as (_ & Hexit).
  destruct (Hexit Scenarios.guardedNode Scenarios.guardedMonitor "/validate"
              (route (SS := EncodingSignatures.scheme) (HF := ChecksumHash.digest)
                 256 1700 GET_validate)) as (Hreached & _).
  - reflexivity.
  - reflexivity.
  - reflexivity.
  - apply Hreached. reflexivity.
Defined.


End NodeMore.

(* ===================================================================== *)
(** ** More on the secret manager: the cache, the providers, the config *)
(* ===================================================================== *)

Module SecretsMore.
Import Secrets SecretsClaims SecretsFacts.

Lemma providerLookup_ignores_cache w secretName defaultValue c sm :
  fst (providerLookup w secretName defaultValue (set_cache c sm))
  = fst (providerLookup w secretName defaultValue sm).
Proof.
  unfold providerLookup, bind, get. simpl.
  destruct (String.eqb (provider sm) "gcp").
  { unfold getGCPSecret. destruct (env_get w "GOOGLE_CLOUD_PROJECT_ID") as [| |p];
      simpl; try reflexivity.
    destruct (String.eqb p EmptyString); simpl; [reflexivity|].
    unfold bind, get. simpl. destruct (gcpClient sm); simpl; [|reflexivity].
    destruct (accessSecretVersion w _); reflexivity. }
  destruct (String.eqb (provider sm) "aws").
  { unfold getAWSSecret, bind, get. simpl. destruct (awsClient sm); simpl; [|reflexivity].
    destruct (ssmSend w secretName); reflexivity. }
  destruct (String.eqb (provider sm) "azure").
  { unfold getAzureSecret, bind, get. simpl. destruct (azureClient sm); simpl;
      [|reflexivity].
    destruct (keyVaultGetSecret w secretName); reflexivity. }
  reflexivity.
Qed.

(** A call of [getSecret] leaves the manager as it is or stores one entry
    under the name it was asked for. *)
Lemma getSecret_state w now fetched secretName defaultValue sm :
  snd (getSecret w now fetched secretName defaultValue sm) = sm
  \/ exists entry,
       snd (getSecret w now fetched secretName defaultValue sm)
       = set_cache (<[secretName := entry]> (cache sm)) sm.
Proof.
  destruct (freshEntry_cases sm secretName now) as [[cached Hc]|Hnone].
  - left. now rewrite (getSecret_hit _ _ _ _ _ _ _ Hc).
  - rewrite (getSecret_miss _ _ _ _ _ _ Hnone).
    destruct (fst (providerLookup _ _ _ _)) as [v| | |]; simpl; auto.
    destruct (js_truthy v); eauto.
Qed.

Lemma getSecret_by_cache w now fetched secretName defaultValue sm sm' :
  provider sm' = provider sm -> gcpClient sm' = gcpClient sm ->
  awsClient sm' = awsClient sm -> azureClient sm' = azureClient sm ->
  cache sm' !! secretName = cache sm !! secretName ->
  fst (getSecret w now fetched secretName defaultValue sm')
  = fst (getSecret w now fetched secretName defaultValue sm).
Proof.
  intros Hp Hg Ha Hz Hc.
  assert (Hfresh : freshEntry sm' secretName now = freshEntry sm secretName now)
    by (unfold freshEntry; now rewrite Hc).
  assert (Hlookup : fst (providerLookup w secretName (orNull defaultValue) sm')
                    = fst (providerLookup w secretName (orNull defaultValue) sm)).
  { destruct sm as [p c g a z], sm' as [p' c' g' a' z']. simpl in *. subst.
    apply (providerLookup_ignores_cache w secretName (orNull defaultValue) c'
             (mkSecretManager p c g a z)). }
  destruct (freshEntry_cases sm secretName now) as [[cached Hh]|Hnone].
  - rewrite (getSecret_hit _ _ _ _ _ sm _ Hh).
    rewrite <- Hfresh in Hh. now rewrite (getSecret_hit _ _ _ _ _ sm' _ Hh).
  - rewrite (getSecret_miss _ _ _ _ _ sm Hnone).
    rewrite <- Hfresh in Hnone. rewrite (getSecret_miss _ _ _ _ _ sm' Hnone), Hlookup.
    destruct (fst (providerLookup _ _ _ sm)); reflexivity.
Qed.

(** X8.  The cache is kept per name: a lookup of one secret, whatever it
    returns and stores, changes neither the cache entry of another name
    nor what a later lookup of that other name returns. *)
Theorem cache_is_per_name w now fetched secretName defaultValue sm
        w' now' fetched' otherName otherDefault :
  secretName <> otherName ->
  let sm' := snd (getSecret w now fetched secretName defaultValue sm) in
  cache sm' !! otherName = cache sm !! otherName
  /\ fst (getSecret w' now' fetched' otherName otherDefault sm')
     = fst (getSecret w' now' fetched' otherName otherDefault sm).
Proof.
  intros Hne. cbv zeta.
  destruct (getSecret_state w now fetched secretName defaultValue sm)
    as [->|(entry & ->)]; [auto|].
  assert (Hc : cache (set_cache (<[secretName := entry]> (cache sm)) sm) !! otherName
               = cache sm !! otherName) by (simpl; now apply lookup_insert_ne).
  split; [exact Hc|]. now apply getSecret_by_cache.
Qed.

Lemma getSecret_env_miss w now fetched secretName defaultValue sm :
  provider sm = "env" ->
  freshEntry sm secretName now = None ->
  js_truthy (js_or (env_get w secretName) defaultValue) = true ->
  getSecret w now fetched secretName defaultValue sm
  = (Ret (js_or (env_get w secretName) defaultValue),
     set_cache (<[secretName := mkEntry (js_or (env_get w secretName) defaultValue)
                                        fetched]> (cache sm)) sm).
Proof.
  intros Henv Hnone Htruthy.
  assert (Hd : js_or (env_get w secretName) (orNull defaultValue)
               = js_or (env_get w secretName) defaultValue).
  { unfold js_or in *. destruct (js_truthy (env_get w secretName)); [reflexivity|].
    destruct defaultValue; simpl in *; congruence. }
  rewrite (getSecret_miss _ _ _ _ _ _ Hnone), (providerLookup_env _ _ _ _ Henv).
  simpl. rewrite Hd, Htruthy. reflexivity.
Qed.

Lemma freshEntry_stale sm secretName now :
  (cache sm !! secretName = None
   \/ exists entry, cache sm !! secretName = Some entry
                    /\ cacheTimeout <= now - timestamp entry) ->
  freshEntry sm secretName now = None.
Proof.
  unfold freshEntry. intros [->|(entry & -> & Hold)]; [reflexivity|].
  destruct (Z.ltb_spec (now - timestamp entry) cacheTimeout); [lia|reflexivity].
Qed.

(** X9.  A cache entry is served for less than five minutes: once
    [Date.now()] is 300000 ms or more past its timestamp, or after
    [clearCache()], the provider is asked again.  On the provider ['env']
    the current non-empty value of the variable is then returned and
    stored with the new timestamp; and when the provider throws, the
    default value is returned: the stale value is not used as a fallback. *)
Theorem stale_entry_is_not_served :
  (forall w now fetched secretName defaultValue sm v,
      provider sm = "env" ->
      processEnv w !! secretName = Some v -> v <> EmptyString ->
      (cache sm !! secretName = None
       \/ exists entry, cache sm !! secretName = Some entry
                        /\ cacheTimeout <= now - timestamp entry) ->
      getSecret w now fetched secretName defaultValue sm
      = (Ret (JString v),
         set_cache (<[secretName := mkEntry (JString v) fetched]> (cache sm)) sm))
  /\ (forall w now fetched secretName defaultValue sm entry e,
      cache sm !! secretName = Some entry ->
      cacheTimeout <= now - timestamp entry ->
      fst (providerLookup w secretName (orNull defaultValue) sm) = Throw e ->
      getSecret w now fetched secretName defaultValue sm = (Ret (orNull defaultValue), sm))
  /\ (forall w now fetched secretName defaultValue sm v,
      provider sm = "env" ->
      processEnv w !! secretName = Some v -> v <> EmptyString ->
      fst (getSecret w now fetched secretName defaultValue (snd (clearCache sm)))
      = Ret (JString v)).
Proof.
  assert (Hvalue : forall w secretName defaultValue v,
             processEnv w !! secretName = Some v -> v <> EmptyString ->
             js_or (env_get w secretName) defaultValue = JString v).
  { intros w secretName defaultValue v Hv Hne. unfold js_or, env_get. rewrite Hv. simpl.
    destruct (String.eqb_spec v EmptyString); [contradiction|reflexivity]. }
  assert (Htruthy : forall v, v <> EmptyString -> js_truthy (JString v) = true).
  { intros v Hne. simpl. destruct (String.eqb_spec v EmptyString); [contradiction|].
    reflexivity. }
  split; [|split].
  - intros w now fetched secretName defaultValue sm v Henv Hv Hne Hstale.
    apply freshEntry_stale in Hstale.
    rewrite (getSecret_env_miss _ _ _ _ _ _ Henv Hstale);
      rewrite (Hvalue _ _ _ _ Hv Hne); auto.
  - intros w now fetched secretName defaultValue sm entry e Hentry Hold Hthrow.
    assert (Hstale : freshEntry sm secretName now = None)
      by (apply freshEntry_stale; eauto).
    now rewrite (getSecret_miss _ _ _ _ _ _ Hstale), Hthrow.
  - intros w now fetched secretName defaultValue sm v Henv Hv Hne.
    rewrite (getSecret_env_miss w now fetched secretName defaultValue
               (snd (clearCache sm)));
      rewrite ?(Hvalue _ _ _ _ Hv Hne); auto.
Qed.

Lemma providerLookup_aws w secretName defaultValue sm :
  provider sm = "aws" -> awsClient sm = true ->
  fst (providerLookup w secretName defaultValue sm)
  = match ssmSend w secretName with Resolves v => Ret v | Rejects e => Throw e end.
Proof.
  intros Hp Hc. unfold providerLookup, bind, get. simpl. rewrite Hp. simpl.
  unfold getAWSSecret, bind, get. simpl. rewrite Hc.
  now destruct (ssmSend w secretName).
Qed.

Lemma providerLookup_azure w secretName defaultValue sm :
  provider sm = "azure" ->
  fst (providerLookup w secretName defaultValue sm)
  = if azureClient sm
    then match keyVaultGetSecret w secretName with
         | Resolves v => Ret v
         | Rejects e => Throw e
         end
    else Throw undefinedClient.
Proof.
  intros Hp. unfold providerLookup, bind, get. simpl. rewrite Hp. simpl.
  unfold getAzureSecret, bind, get. simpl. destruct (azureClient sm); [|reflexivity].
  now destruct (keyVaultGetSecret w secretName).
Qed.

Lemma providerLookup_gcp w secretName defaultValue sm :
  provider sm = "gcp" ->
  fst (providerLookup w secretName defaultValue sm)
  = match processEnv w !! "GOOGLE_CLOUD_PROJECT_ID" with
    | Some p =>
        if String.eqb p EmptyString
        then Throw (mkError PlainError "GOOGLE_CLOUD_PROJECT_ID not set")
        else if gcpClient sm
             then match accessSecretVersion w
                          ("projects/" ++ p ++ "/secrets/" ++ secretName
                           ++ "/versions/latest")%string with
                  | Resolves data => Ret (JString data)
                  | Rejects e => Throw e
                  end
             else Throw undefinedClient
    | None => Throw (mkError PlainError "GOOGLE_CLOUD_PROJECT_ID not set")
    end.
Proof.
  intros Hp. unfold providerLookup, bind, get. simpl. rewrite Hp. simpl.
  unfold getGCPSecret, env_get.
  destruct (processEnv w !! "GOOGLE_CLOUD_PROJECT_ID") as [p|]; [|reflexivity].
  destruct (String.eqb p EmptyString); [reflexivity|].
  unfold bind, get. simpl. destruct (gcpClient sm); [|reflexivity].
  now destruct (accessSecretVersion w _).
Qed.

(** X10.  What a cloud provider answers is returned as it is.  Without a
    fresh cache entry, on ['aws'] and ['azure'] the value that the
    service resolves to is the result also when it is [undefined] or
    empty: the default value is not put in its place, and such a value is
    not cached.  The default is returned only when the call rejects.  On
    ['gcp'] the secret is read at
    [projects/<project>/secrets/<name>/versions/latest], and without a
    non-empty [GOOGLE_CLOUD_PROJECT_ID] the default is returned whatever
    the service holds. *)
Theorem cloud_answer_is_returned_as_is w now fetched secretName defaultValue sm :
  freshEntry sm secretName now = None ->
  let stored v :=
    if js_truthy v
    then set_cache (<[secretName := mkEntry v fetched]> (cache sm)) sm else sm in
  (provider sm = "aws" -> awsClient sm = true ->
   getSecret w now fetched secretName defaultValue sm
   = match ssmSend w secretName with
     | Resolves v => (Ret v, stored v)
     | Rejects _ => (Ret (orNull defaultValue), sm)
     end)
  /\ (provider sm = "azure" -> azureClient sm = true ->
      getSecret w now fetched secretName defaultValue sm
      = match keyVaultGetSecret w secretName with
        | Resolves v => (Ret v, stored v)
        | Rejects _ => (Ret (orNull defaultValue), sm)
        end)
  /\ (provider sm = "gcp" -> gcpClient sm = true ->
      forall p, processEnv w !! "GOOGLE_CLOUD_PROJECT_ID" = Some p -> p <> EmptyString ->
      getSecret w now fetched secretName defaultValue sm
      = match accessSecretVersion w
                ("projects/" ++ p ++ "/secrets/" ++ secretName
                 ++ "/versions/latest")%string with
        | Resolves data => (Ret (JString data), stored (JString data))
        | Rejects _ => (Ret (orNull defaultValue), sm)
        end)
  /\ (provider sm = "gcp" ->
      js_truthy (env_get w "GOOGLE_CLOUD_PROJECT_ID") = false ->
      getSecret w now fetched secretName defaultValue sm
      = (Ret (orNull defaultValue), sm)).
Proof.
  intros Hnone stored. rewrite (getSecret_miss _ _ _ _ _ _ Hnone).
  split; [|split; [|split]].
  - intros Hp Hc. rewrite (providerLookup_aws _ _ _ _ Hp Hc).
    now destruct (ssmSend w secretName).
  - intros Hp Hc. rewrite (providerLookup_azure _ _ _ _ Hp), Hc.
    now destruct (keyVaultGetSecret w secretName).
  - intros Hp Hc p Hproject Hne. rewrite (providerLookup_gcp _ _ _ _ Hp), Hproject, Hc.
    destruct (String.eqb_spec p EmptyString); [contradiction|].
    now destruct (accessSecretVersion w _).
  - intros Hp Hproject. rewrite (providerLookup_gcp _ _ _ _ Hp).
    unfold env_get in Hproject.
    destruct (processEnv w !! "GOOGLE_CLOUD_PROJECT_ID") as [p|]; [|reflexivity].
    simpl in Hproject. apply negb_false_iff in Hproject. now rewrite Hproject.
Qed.






(** The second lookup of ['PORT'] is served from the cache of the first,
    whether or not ['LOG_LEVEL'] was looked up in between. *)
Lemma cache_is_per_name_witness :
  let first := snd (getSecret Scenarios.awsWorld 0 5 "PORT" (JString "3000")
                      Scenarios.envManager) in
  let between := snd (getSecret Scenarios.awsWorld 6 7 "LOG_LEVEL" (JString "info") first) in
  fst (getSecret Scenarios.emptyKeyWorld 10 11 "PORT" (JString "3000") between)
  = fst (getSecret Scenarios.emptyKeyWorld 10 11 "PORT" (JString "3000") first)
  /\ cache between !! "PORT" = cache first !! "PORT".
Proof.
  cbv zeta.
  destruct (cache_is_per_name Scenarios.awsWorld 6 7 "LOG_LEVEL" (JString "info")
              (snd (getSecret Scenarios.awsWorld 0 5 "PORT" (JString "3000")
                      Scenarios.envManager))
              Scenarios.emptyKeyWorld 10 11 "PORT" (JString "3000")) as [Hcache Hfst].
  - discriminate.
  - split; assumption.
Defined.

(** The port that was cached at time 5 is served up to 300004 and read
    again from the environment at 300005. *)
Lemma stale_entry_is_not_served_witness :
  let first := snd (getSecret Scenarios.awsWorld 0 5 "PORT" (JString "3000")
                      Scenarios.envManager) in
  fst (getSecret Scenarios.correctedWorld 300004 300004 "PORT" (JString "3000") first)
  = Ret (JString "8080")
  /\ fst (getSecret Scenarios.correctedWorld 300005 300006 "PORT" (JString "3000") first)
     = Ret (JString "9090").
Proof.
  cbv zeta. split; [reflexivity|].
  destruct stale_entry_is_not_served as (Hstale & _ & _).
  rewrite (Hstale Scenarios.correctedWorld 300005 300006 "PORT" (JString "3000")
             (snd (getSecret Scenarios.awsWorld 0 5 "PORT" (JString "3000")
                     Scenarios.envManager)) "9090").
  - reflexivity.
  - reflexivity.
  - reflexivity.
  - discriminate.
  - right. eexists. split; [vm_compute; reflexivity|]. vm_compute. discriminate.
Defined.

(** The parameter store answers without a value: the lookup returns
    [undefined], not the default that was passed. *)
Lemma cloud_answer_is_returned_as_is_witness :
  getSecret Scenarios.valuelessWorld 0 1 "JWT_SECRET" (JString "fallback")
            (new_SecretManager Scenarios.valuelessWorld false)
  = (Ret JUndefined, new_SecretManager Scenarios.valuelessWorld false).
Proof.
  destruct (cloud_answer_is_returned_as_is Scenarios.valuelessWorld 0 1 "JWT_SECRET"
              (JString "fallback") (new_SecretManager Scenarios.valuelessWorld false))
    as (Haws & _).
  - reflexivity.
  - apply Haws; reflexivity.
Defined.



End SecretsMore.

(* ===================================================================== *)
(** ** More on the budget monitor: quotas, alert keys, the manual reset *)
(* ===================================================================== *)

Module BudgetLimits.
Import Budget BudgetCalls BudgetEvents BudgetFacts BudgetMore.

Section WithNumbers.
Context {JN : JsNumber}.

Lemma includes_In (l : list string) k : includes l k = true <-> In k l.
Proof.
  unfold includes. rewrite existsb_exists. split.
  - intros (x & Hin & Heq). apply String.eqb_eq in Heq. now subst.
  - intros Hin. exists k. split; [assumption|apply String.eqb_refl].
Qed.

Lemma evolves_alert_keys m m' :
  evolves m m' -> List.NoDup (alerts m) -> List.NoDup (alerts m').
Proof.
  induction 1 as [m|m m' period percentage current limit Hin Hev IH
                  |m m' period current limit Hs Hev IH]; intros Hnodup.
  - exact Hnodup.
  - apply IH. simpl. apply List.NoDup_app.
    + exact Hnodup.
    + constructor; [intros []|constructor].
    + intros k Hk [<-|[]]. apply includes_In in Hk. congruence.
  - apply IH. exact Hnodup.
Qed.

Lemma perform_alert_keys c m :
  List.NoDup (alerts m) -> List.NoDup (alerts (snd (perform c m))).
Proof.
  intros Hnodup. destruct c as [amount service| |now]; simpl.
  - destruct (isShutdown m) eqn:Hs.
    + now rewrite (recordCost_shutdown _ _ _ Hs).
    + rewrite (recordCost_running _ _ _ Hs).
      eapply evolves_alert_keys; [apply checkBudgets_evolves|exact Hnodup].
  - eapply evolves_alert_keys; [apply checkBudgets_evolves|exact Hnodup].
  - unfold resetIfNeeded, bind, get, when, modify, ret. simpl.
    destruct (negb (getDate now =? getDate (lastResetDate m))%nat); simpl;
      match goal with |- context [negb ?b] => destruct (negb b) end; simpl;
      repeat apply List.NoDup_filter; exact Hnodup.
Qed.

(** X13.  No alert key is stored twice.  A new monitor has no alert keys,
    and under every sequence of [recordCost], [checkBudgets] and
    [resetIfNeeded] calls the keys of [alerts] stay pairwise different, so
    that the number of alerts that [getStatus()] reports counts each
    period and whole percentage once. *)
Theorem alert_keys_are_stored_once :
  (forall config now, alerts (new_BudgetMonitor config now) = [])
  /\ (forall m calls, List.NoDup (alerts m) -> List.NoDup (alerts (after calls m))).
Proof.
  split; [reflexivity|].
  intros m calls. revert m.
  induction calls as [|c calls IH]; intros m Hnodup; simpl; [exact Hnodup|].
  apply IH. now apply perform_alert_keys.
Qed.



End WithNumbers.






(** The keys of the monitor that alerted at 85% stay different over the
    calls of a busy day. *)
Lemma alert_keys_are_stored_once_witness :
  List.NoDup (alerts (after Scenarios.busyDay (snd (checkBudgets Scenarios.nearLimit)))).
Proof.
  destruct (alert_keys_are_stored_once (JN := QNumber)) as [_ Hkeep].
  apply Hkeep. vm_compute. constructor; [intros []|constructor].
Defined.



End BudgetLimits.
